(** * Secure Photo Downloader: the link-issuance Lambda handler

    A shallow embedding of [src/lambda/auth-handler.py]: the handler
    [lambda_handler] and its two page generators [generate_download_page]
    and [generate_error_page], followed by the properties the specification
    states about them.

    Python values are modelled as far as the handler inspects them.  The
    event is a JSON value whose strings are sequences of code points, lone
    surrogates included.  The environment is a finite map of texts and the
    storage client a pair of functions that return or raise; their texts,
    and the pages built from them, are [string]s holding the UTF-8 encoding
    of the text.  [print] and the client calls are recorded in an effect
    trace.  What the interpreter decides outside this file (whether
    [json.dumps] and [str] accept a value, whether the standard output can
    encode a text, how [int] words its error) is a parameter [python] of
    the handler. *)

From stdpp Require Import gmap strings list.
From Stdlib Require Import ZArith NArith Ascii DecimalString PrimFloat.

Open Scope string_scope.
Open Scope list_scope.
#[local] Set Warnings "-register-all".
#[local] Arguments String.append !_ _ / : simpl nomatch.

(** ** Python values and built-ins *)

Module Py.

(** The [str] that holds the bytes of [s] as its characters: the value of
    an ASCII literal. *)
Fixpoint ustr_of (s : string) : list N :=
  match s with
  | "" => []
  | String c rest => N_of_ascii c :: ustr_of rest
  end.

(** A code point of the surrogate range, which no encoder accepts alone. *)
Definition is_surrogate (c : N) : bool := ((0xD800 <=? c) && (c <=? 0xDFFF))%N.

(** A value as [json.loads] builds it: the event the runtime hands to the
    handler.  A [str] is the list of its code points.  A [dict] keeps its
    items in a list; [dict_get] returns the last binding of a key, as a
    JSON object with a repeated key does. *)
Inductive pyval : Type :=
| PNone
| PBool (b : bool)
| PInt (n : Z)
| PFloat (x : float)
| PStr (s : list N)
| PList (l : list pyval)
| PDict (items : list (list N * pyval)).

(** [bool(v)]. *)
Definition truthy (v : pyval) : bool :=
  match v with
  | PNone => false
  | PBool b => b
  | PInt n => negb (n =? 0)%Z
  | PFloat x => negb (PrimFloat.eqb x 0%float)
  | PStr s => match s with [] => false | _ => true end
  | PList l => match l with [] => false | _ => true end
  | PDict d => match d with [] => false | _ => true end
  end.

(** [type(v).__name__]. *)
Definition type_name (v : pyval) : string :=
  match v with
  | PNone => "NoneType"
  | PBool _ => "bool"
  | PInt _ => "int"
  | PFloat _ => "float"
  | PStr _ => "str"
  | PList _ => "list"
  | PDict _ => "dict"
  end.

(** The [Error] entry of a botocore error response. *)
Record error_info : Type := {
  Code : option string;
  Message : option string
}.

(** A [botocore.exceptions.ClientError]: its [response] holds at most an
    [Error] entry; [client_error_str] is what [str(e)] gives. *)
Record client_error : Type := {
  response_Error : option error_info;
  client_error_str : string
}.

(** Instances of [Exception], each with the text [str(e)] gives.
    [OtherException] stands for every class the handler does not name
    (botocore's [BotoCoreError] family among them). *)
Inductive exn : Type :=
| ClientError (e : client_error)
| AttributeError (msg : string)
| TypeError (msg : string)
| KeyError (key : string)
| ValueError (msg : string)
| UnicodeEncodeError (msg : string)
| OtherException (msg : string).

Definition sq : string := "'".

(** [str(e)]. *)
Definition py_str_exn (e : exn) : string :=
  match e with
  | ClientError ce => client_error_str ce
  | AttributeError msg => msg
  | TypeError msg => msg
  | KeyError key => sq +:+ key +:+ sq
  | ValueError msg => msg
  | UnicodeEncodeError msg => msg
  | OtherException msg => msg
  end.

(** The result of evaluating an expression: a value or a raised exception. *)
Inductive result (A : Type) : Type :=
| Ok (a : A)
| Raise (e : exn).
Arguments Ok {A} a.
Arguments Raise {A} e.

(** What the interpreter around the handler decides: the exception
    [json.dumps(v)] raises, if any (an integer too long to print, a
    nesting too deep); the exception [str(v)] raises for a list, if any;
    the exception the standard output raises when it is given a text, if
    any (a lone surrogate it cannot encode); and the message of the
    [ValueError] [int] raises for a text it rejects. *)
Record python : Type := {
  json_dumps_error : pyval -> option exn;
  str_error : pyval -> option exn;
  stdout_error : list N -> option exn;
  int_error_text : string -> string
}.

(** *** Text *)

(** A byte that continues a character in UTF-8. *)
Definition is_continuation (c : ascii) : bool :=
  let n := nat_of_ascii c in ((128 <=? n) && (n <? 192))%nat.

(** [s[:n]] on a text: its first [n] characters. *)
Fixpoint text_prefix (n : nat) (s : string) : string :=
  match s with
  | "" => ""
  | String c rest =>
      if is_continuation c then String c (text_prefix n rest)
      else match n with
           | O => ""
           | S m => String c (text_prefix m rest)
           end
  end.


(** [s.split('/')]: never empty. *)
Fixpoint split_slash (s : string) : list string :=
  match s with
  | "" => [""]
  | String c rest =>
      if Ascii.eqb c "/"%char then "" :: split_slash rest
      else match split_slash rest with
           | [] => [String c ""]
           | seg :: segs => String c seg :: segs
           end
  end.

(** [l[-1]] on a list known to be non-empty ([d] is never reached from
    [split_slash]). *)
Definition last_item (l : list string) (d : string) : string := List.last l d.

(** [str(n)] for an [int].  CPython prints integers of up to 4300 digits;
    the handler formats only the hours of an expiry that [int] has read,
    which has no more digits than that. *)
Definition str_of_int (n : Z) : string := NilZero.string_of_int (Z.to_int n).

(** *** [int(s)] on a [str], base 10

    A text with a character outside ASCII is first rewritten: each such
    character becomes a space if it is white space, its ASCII digit if it
    is a decimal digit, and a question mark otherwise.  Then surrounding
    ASCII white space is dropped, one sign is accepted, and digits may be
    separated by single underscores. *)

(** The code points of a text, or nothing when the bytes are not UTF-8. *)
Definition continuation_bits (c : ascii) : option N :=
  if is_continuation c then Some (N_of_ascii c - 128)%N else None.

Fixpoint decode_utf8 (s : string) : option (list N) :=
  match s with
  | "" => Some []
  | String b0 rest =>
      let n0 := N_of_ascii b0 in
      if (n0 <? 0x80)%N then cons n0 <$> decode_utf8 rest
      else if (n0 <? 0xC0)%N then None
      else if (n0 <? 0xE0)%N then
        match rest with
        | String b1 rest =>
            c1 ← continuation_bits b1;
            let cp := ((n0 - 0xC0) * 64 + c1)%N in
            if (cp <? 0x80)%N then None else cons cp <$> decode_utf8 rest
        | _ => None
        end
      else if (n0 <? 0xF0)%N then
        match rest with
        | String b1 (String b2 rest) =>
            c1 ← continuation_bits b1;
            c2 ← continuation_bits b2;
            let cp := (((n0 - 0xE0) * 64 + c1) * 64 + c2)%N in
            if (cp <? 0x800)%N || is_surrogate cp then None
            else cons cp <$> decode_utf8 rest
        | _ => None
        end
      else if (n0 <? 0xF8)%N then
        match rest with
        | String b1 (String b2 (String b3 rest)) =>
            c1 ← continuation_bits b1;
            c2 ← continuation_bits b2;
            c3 ← continuation_bits b3;
            let cp := ((((n0 - 0xF0) * 64 + c1) * 64 + c2) * 64 + c3)%N in
            if (cp <? 0x10000)%N || (0x10FFFF <? cp)%N then None
            else cons cp <$> decode_utf8 rest
        | _ => None
        end
      else None
  end.

(** White space beyond ASCII ([str.isspace]). *)
Definition is_unicode_space (c : N) : bool :=
  bool_decide (c ∈ [0x85; 0xA0; 0x1680; 0x2028; 0x2029; 0x202F; 0x205F; 0x3000]%N)
  || ((0x2000 <=? c) && (c <=? 0x200A))%N.

(** The zeros of the decimal digits of Unicode 14.0, the version of
    CPython 3.11: each is followed by its digits one to nine. *)
Definition decimal_zeros : list N :=
  [0x30; 0x660; 0x6F0; 0x7C0; 0x966; 0x9E6; 0xA66; 0xAE6; 0xB66; 0xBE6;
   0xC66; 0xCE6; 0xD66; 0xDE6; 0xE50; 0xED0; 0xF20; 0x1040; 0x1090; 0x17E0;
   0x1810; 0x1946; 0x19D0; 0x1A80; 0x1A90; 0x1B50; 0x1BB0; 0x1C40; 0x1C50;
   0xA620; 0xA8D0; 0xA900; 0xA9D0; 0xA9F0; 0xAA50; 0xABF0; 0xFF10; 0x104A0;
   0x10D30; 0x11066; 0x110F0; 0x11136; 0x111D0; 0x112F0; 0x11450; 0x114D0;
   0x11650; 0x116C0; 0x11730; 0x118E0; 0x11950; 0x11C50; 0x11D50; 0x11DA0;
   0x16A60; 0x16AC0; 0x16B50; 0x1D7CE; 0x1D7D8; 0x1D7E2; 0x1D7EC; 0x1D7F6;
   0x1E140; 0x1E2F0; 0x1E950; 0x1FBF0]%N.

(** The value of a decimal digit ([unicodedata.decimal]). *)
Definition decimal_value (c : N) : option N :=
  (fun z => (c - z)%N) <$>
    List.find (fun z => ((z <=? c) && (c <? z + 10))%N) decimal_zeros.

(** The ASCII text [int] reads in place of [s], when [s] is not ASCII. *)
Definition ascii_stand_in (c : N) : ascii :=
  if (c <? 127)%N then ascii_of_N c
  else if is_unicode_space c then " "%char
  else match decimal_value c with
       | Some d => ascii_of_N (48 + d)
       | None => "?"%char
       end.

Fixpoint string_of_chars (l : list ascii) : string :=
  match l with
  | [] => ""
  | c :: rest => String c (string_of_chars rest)
  end.

Fixpoint is_ascii_text (s : string) : bool :=
  match s with
  | "" => true
  | String c rest => (nat_of_ascii c <? 128)%nat && is_ascii_text rest
  end.

Definition int_reads (s : string) : option string :=
  if is_ascii_text s then Some s
  else (fun cps => string_of_chars (ascii_stand_in <$> cps)) <$> decode_utf8 s.

(** White space for [int] in ASCII text: tab to carriage return, and the
    space. *)
Definition is_space (c : ascii) : bool :=
  let n := nat_of_ascii c in
  (((9 <=? n) && (n <=? 13)) || (n =? 32))%nat.

Definition digit_of (c : ascii) : option Z :=
  let n := nat_of_ascii c in
  if ((48 <=? n) && (n <=? 57))%nat then Some (Z.of_nat (n - 48)) else None.

Fixpoint lstrip (s : string) : string :=
  match s with
  | String c rest => if is_space c then lstrip rest else s
  | "" => ""
  end.

Definition strip (s : string) : string :=
  String.rev (lstrip (String.rev (lstrip s))).

(** [prev_digit] tells whether the character just read was a digit: an
    underscore is legal only between two digits. *)
Fixpoint parse_digits (acc : Z) (prev_digit : bool) (s : string) : option Z :=
  match s with
  | "" => if prev_digit then Some acc else None
  | String c rest =>
      match digit_of c with
      | Some d => parse_digits (10 * acc + d) true rest
      | None =>
          if Ascii.eqb c "_"%char && prev_digit
          then parse_digits acc false rest
          else None
      end
  end.

Fixpoint count_digits (s : string) : nat :=
  match s with
  | "" => 0
  | String c rest =>
      (if digit_of c is Some _ then 1 else 0) + count_digits rest
  end.

(** [sys.get_int_max_str_digits()]. *)
Definition int_max_str_digits : nat := 4300.

Definition parse_int (s : string) : option Z :=
  text ← int_reads s;
  let body := strip text in
  if (int_max_str_digits <? count_digits body)%nat then None
  else
    match body with
    | String "-" digits => Z.opp <$> parse_digits 0 false digits
    | String "+" digits => parse_digits 0 false digits
    | _ => parse_digits 0 false body
    end.

Definition int_of_str (py : python) (s : string) : result Z :=
  match parse_int s with
  | Some n => Ok n
  | None => Raise (ValueError (int_error_text py s))
  end.

(** *** Dictionaries and subscripts *)

(** The last binding of [k], as [json.loads] keeps it. *)
Fixpoint dict_get (items : list (list N * pyval)) (k : list N) : option pyval :=
  match items with
  | [] => None
  | (k', v) :: rest =>
      match dict_get rest k with
      | Some w => Some w
      | None => if bool_decide (k' = k) then Some v else None
      end
  end.

(** [v.get(k)] for a literal [k]: only a [dict] has the method. *)
Definition get (v : pyval) (k : string) : result pyval :=
  match v with
  | PDict items => Ok (default PNone (dict_get items (ustr_of k)))
  | _ => Raise (AttributeError
                  (sq +:+ type_name v +:+ "' object has no attribute 'get'"))
  end.

(** [a or b]. *)
Definition or_ (a b : pyval) : pyval := if truthy a then a else b.

(** [v[:n]]: a [str] and a [list] can be sliced; a [dict] rejects the
    slice as a key (with the [TypeError] of CPython up to 3.11; later
    versions raise a [KeyError], which the handler treats alike), and the
    other values have no subscript. *)
Definition slice_to (n : nat) (v : pyval) : result pyval :=
  match v with
  | PStr s => Ok (PStr (take n s))
  | PList l => Ok (PList (take n l))
  | PDict _ => Raise (TypeError "unhashable type: 'slice'")
  | _ => Raise (TypeError (sq +:+ type_name v +:+ "' object is not subscriptable"))
  end.

(** [os.environ.get(k, d)]. *)
Definition environ_get (environ : gmap string string) (k d : string) : string :=
  default d (environ !! k).

End Py.
Import Py.

(** ** Effects

    The handler writes log lines and talks to the object store.  Both are
    kept in a trace, in program order, next to the value or exception the
    computation ends with. *)

(** A line written by [print], kept as the data it is formatted from. *)
Inductive log_line : Type :=
| Event_received (event : pyval)
| Authorization_code_received (prefix : pyval)
| No_authorization_code
| Object_exists (key bucket : string)
| Object_not_found (key bucket : string)
| Generated_presigned_url (prefix : string)
| AWS_Error (text : string)
| General_Error (text : string).

(** A call on the S3 client: its keyword arguments and how it ended. *)
Inductive s3_call : Type :=
| Head_object (Bucket Key : string) (answer : result unit)
| Generate_presigned_url (ClientMethod Bucket Key : string) (ExpiresIn : Z)
    (answer : result string).

Inductive effect : Type :=
| Print (line : log_line)
| Client (service : string)
| S3 (call : s3_call).

(** The S3 client of boto3, as far as the handler uses it.  [head_object]
    returns metadata the handler ignores. *)
Record s3_client : Type := {
  head_object : string -> string -> result unit;
  generate_presigned_url : string -> string -> string -> Z -> result string
}.

(** The [boto3] module: [client service] builds a client or raises. *)
Record boto3_module : Type := {
  client : string -> result s3_client
}.

(** A computation: the effects performed, then a value or an exception. *)
Definition M (A : Type) : Type := (list effect * result A)%type.

#[global] Instance M_ret : MRet M := fun A a => ([], Ok a).

#[global] Instance M_bind : MBind M := fun A B f m =>
  match m with
  | (w, Ok a) => let '(w', r) := f a in (w ++ w', r)
  | (w, Raise e) => (w, Raise e)
  end.

Definition effects {A} (m : M A) : list effect := fst m.
Definition outcome {A} (m : M A) : result A := snd m.

Definition lift {A} (r : result A) : M A := ([], r).
Definition raise {A} (e : exn) : M A := ([], Raise e).

(** The exception raised while a line is formatted and written, if any.
    [json.dumps] may reject the event.  A code that is a [str] is written
    as it is, between the words of line 40, and the standard output may
    not be able to encode it; a code that is a list goes through [str].
    The other lines hold configuration and store texts, which the standard
    output encodes as UTF-8. *)
Definition print_error (py : python) (line : log_line) : option exn :=
  match line with
  | Event_received event => json_dumps_error py event
  | Authorization_code_received (PStr s) =>
      stdout_error py (ustr_of "Authorization code received: " ++ s ++ ustr_of "...")
  | Authorization_code_received v => str_error py v
  | _ => None
  end.

(** [print(f"...")]: the line is logged unless formatting or writing it
    raises. *)
Definition print (py : python) (line : log_line) : M unit :=
  match print_error py line with
  | Some e => ([], Raise e)
  | None => ([Print line], Ok ())
  end.

Definition boto3_client (boto3 : boto3_module) (service : string) : M s3_client :=
  ([Client service], client boto3 service).

Definition s3_head_object (c : s3_client) (Bucket Key : string) : M unit :=
  let answer := head_object c Bucket Key in
  ([S3 (Head_object Bucket Key answer)], answer).

Definition s3_generate_presigned_url (c : s3_client)
    (ClientMethod Bucket Key : string) (ExpiresIn : Z) : M string :=
  let answer := generate_presigned_url c ClientMethod Bucket Key ExpiresIn in
  ([S3 (Generate_presigned_url ClientMethod Bucket Key ExpiresIn answer)], answer).

(** [try: body except ...: handler].  [handler e] is [None] when no
    [except] clause matches [e], which then propagates. *)
Definition try_except {A} (body : M A) (handler : exn -> option (M A)) : M A :=
  match body with
  | (w, Ok a) => (w, Ok a)
  | (w, Raise e) =>
      match handler e with
      | Some h => let '(w', r) := h in (w ++ w', r)
      | None => (w, Raise e)
      end
  end.

(** The calls of a trace, in order: what is left when the log lines are
    dropped. *)
Definition is_print (ev : effect) : bool :=
  match ev with Print _ => true | _ => false end.

Definition calls (t : list effect) : list effect :=
  List.filter (fun ev => negb (is_print ev)) t.

(** ** f-strings

    An f-string is a sequence of literal text and replacement fields; a
    template is kept line by line, the lines joined by a newline. *)

Inductive part (F : Type) : Type :=
| Lit (s : string)
| Fld (f : F).
Arguments Lit {F} s.
Arguments Fld {F} f.

#[global] Instance part_eq_dec {F} `{EqDecision F} : EqDecision (part F).
Proof. solve_decision. Defined.

Definition dq : string := String (ascii_of_nat 34) EmptyString.
Definition nl : string := String (ascii_of_nat 10) EmptyString.

(** The double quote, as a piece of literal text. *)
Definition DQ {F} : part F := Lit dq.

Definition part_text {F} (value : F -> string) (p : part F) : string :=
  match p with
  | Lit s => s
  | Fld f => value f
  end.

Definition render_line {F} (value : F -> string) (line : list (part F)) : string :=
  foldr (fun p acc => part_text value p +:+ acc) "" line.

Definition fstring {F} (value : F -> string) (lines : list (list (part F))) : string :=
  String.concat nl (map (render_line value) lines).

(** ** The pages *)

(** The replacement fields of the download page. *)
Inductive download_field : Type :=
| D_app_name
| D_download_url
| D_file_name
| D_expiry_hours
| D_plural.

#[global] Instance download_field_eq_dec : EqDecision download_field.
Proof. solve_decision. Defined.

(** The replacement fields of the error page. *)
Inductive error_field : Type :=
| E_app_name
| E_error_title
| E_error_details.

#[global] Instance error_field_eq_dec : EqDecision error_field.
Proof. solve_decision. Defined.

(** The text of the f-string of [generate_download_page]; [D_plural] is the
    field ['s' if expiry_hours != 1 else '']. *)
Definition download_page_template : list (list (part download_field)) := [
  [];
  [Lit "    <!DOCTYPE html>"];
  [Lit "    <html lang="; DQ; Lit "en"; DQ; Lit ">"];
  [Lit "    <head>"];
  [Lit "        <meta charset="; DQ; Lit "UTF-8"; DQ; Lit ">"];
  [Lit "        <meta name="; DQ; Lit "viewport"; DQ; Lit " content="; DQ;
   Lit "width=device-width, initial-scale=1.0"; DQ; Lit ">"];
  [Lit "        <title>Secure Download - "; Fld D_app_name; Lit "</title>"];
  [Lit "        <meta http-equiv="; DQ; Lit "refresh"; DQ; Lit " content="; DQ; Lit "3;url=";
   Fld D_download_url; DQ; Lit ">"];
  [Lit "        <style>"];
  [Lit "            body { "];
  [Lit "                font-family: 'Segoe UI', Tahoma, Geneva, Verdana, sans-serif; "];
  [Lit "                text-align: center; "];
  [Lit "                margin: 0;"];
  [Lit "                padding: 20px;"];
  [Lit "                background: linear-gradient(135deg, #667eea 0%, #764ba2 100%);"];
  [Lit "                color: white;"];
  [Lit "                min-height: 100vh;"];
  [Lit "                display: flex;"];
  [Lit "                align-items: center;"];
  [Lit "                justify-content: center;"];
  [Lit "            }"];
  [Lit "            .container { "];
  [Lit "                max-width: 600px; "];
  [Lit "                background: rgba(255, 255, 255, 0.1);"];
  [Lit "                backdrop-filter: blur(10px);"];
  [Lit "                border-radius: 20px;"];
  [Lit "                padding: 40px;"];
  [Lit "                box-shadow: 0 8px 32px rgba(0, 0, 0, 0.1);"];
  [Lit "                border: 1px solid rgba(255, 255, 255, 0.2);"];
  [Lit "            }"];
  [Lit "            .success { "];
  [Lit "                color: #4CAF50; "];
  [Lit "                font-size: 4em;"];
  [Lit "                margin-bottom: 20px;"];
  [Lit "                animation: pulse 2s infinite;"];
  [Lit "            }"];
  [Lit "            @keyframes pulse {"];
  [Lit "                0% { transform: scale(1); }"];
  [Lit "                50% { transform: scale(1.1); }"];
  [Lit "                100% { transform: scale(1); }"];
  [Lit "            }"];
  [Lit "            h1 {"];
  [Lit "                margin: 20px 0;"];
  [Lit "                font-size: 2em;"];
  [Lit "                font-weight: 300;"];
  [Lit "            }"];
  [Lit "            .app-name {"];
  [Lit "                font-size: 0.8em;"];
  [Lit "                opacity: 0.8;"];
  [Lit "                margin-bottom: 30px;"];
  [Lit "            }"];
  [Lit "            p {"];
  [Lit "                font-size: 1.1em;"];
  [Lit "                line-height: 1.6;"];
  [Lit "                margin: 15px 0;"];
  [Lit "            }"];
  [Lit "            .download-link { "];
  [Lit "                display: inline-block; "];
  [Lit "                background: linear-gradient(45deg, #4CAF50, #45a049);"];
  [Lit "                color: white; "];
  [Lit "                padding: 15px 30px; "];
  [Lit "                text-decoration: none; "];
  [Lit "                border-radius: 50px; "];
  [Lit "                margin: 20px 0;"];
  [Lit "                font-weight: bold;"];
  [Lit "                font-size: 1.1em;"];
  [Lit "                transition: all 0.3s ease;"];
  [Lit "                box-shadow: 0 4px 15px rgba(76, 175, 80, 0.3);"];
  [Lit "            }"];
  [Lit "            .download-link:hover {"];
  [Lit "                transform: translateY(-2px);"];
  [Lit "                box-shadow: 0 6px 20px rgba(76, 175, 80, 0.4);"];
  [Lit "            }"];
  [Lit "            .spinner {"];
  [Lit "                border: 3px solid rgba(255, 255, 255, 0.3);"];
  [Lit "                border-radius: 50%;"];
  [Lit "                border-top: 3px solid white;"];
  [Lit "                width: 40px;"];
  [Lit "                height: 40px;"];
  [Lit "                animation: spin 1s linear infinite;"];
  [Lit "                margin: 20px auto;"];
  [Lit "            }"];
  [Lit "            @keyframes spin {"];
  [Lit "                0% { transform: rotate(0deg); }"];
  [Lit "                100% { transform: rotate(360deg); }"];
  [Lit "            }"];
  [Lit "            .info {"];
  [Lit "                background: rgba(255, 255, 255, 0.1);"];
  [Lit "                border-radius: 15px;"];
  [Lit "                padding: 20px;"];
  [Lit "                margin-top: 30px;"];
  [Lit "                font-size: 0.95em;"];
  [Lit "                border: 1px solid rgba(255, 255, 255, 0.2);"];
  [Lit "            }"];
  [Lit "            .file-info {"];
  [Lit "                background: rgba(255, 255, 255, 0.05);"];
  [Lit "                border-radius: 10px;"];
  [Lit "                padding: 15px;"];
  [Lit "                margin: 20px 0;"];
  [Lit "                font-family: monospace;"];
  [Lit "            }"];
  [Lit "            .countdown {"];
  [Lit "                font-size: 1.2em;"];
  [Lit "                font-weight: bold;"];
  [Lit "                color: #4CAF50;"];
  [Lit "            }"];
  [Lit "        </style>"];
  [Lit "        <script>"];
  [Lit "            let countdown = 3;"];
  [Lit "            function updateCountdown() {"];
  [Lit "                const element = document.getElementById('countdown');"];
  [Lit "                if (element) {"];
  [Lit "                    element.textContent = countdown;"];
  [Lit "                    countdown--;"];
  [Lit "                    if (countdown >= 0) {"];
  [Lit "                        setTimeout(updateCountdown, 1000);"];
  [Lit "                    }"];
  [Lit "                }"];
  [Lit "            }"];
  [Lit "            window.onload = updateCountdown;"];
  [Lit "        </script>"];
  [Lit "    </head>"];
  [Lit "    <body>"];
  [Lit "        <div class="; DQ; Lit "container"; DQ; Lit ">"];
  [Lit "            <div class="; DQ; Lit "success"; DQ; Lit ">üîê</div>"];
  [Lit "            <div class="; DQ; Lit "app-name"; DQ; Lit ">"; Fld D_app_name; Lit "</div>"];
  [Lit "            <h1>Authentication Successful!</h1>"];
  [Lit "            <div class="; DQ; Lit "spinner"; DQ; Lit "></div>"];
  [Lit "            <p>Your secure download will start automatically in <span id="; DQ;
   Lit "countdown"; DQ; Lit " class="; DQ; Lit "countdown"; DQ; Lit ">3</span> seconds...</p>"];
  [Lit "            "];
  [Lit "            <div class="; DQ; Lit "file-info"; DQ; Lit ">"];
  [Lit "                <strong>üìÅ File:</strong> "; Fld D_file_name];
  [Lit "            </div>"];
  [Lit "            "];
  [Lit "            <p>If the download doesn't start automatically, click the button below:</p>"];
  [Lit "            <a href="; DQ; Fld D_download_url; DQ; Lit " class="; DQ;
   Lit "download-link"; DQ; Lit ">üì• Download Securely</a>"];
  [Lit "            "];
  [Lit "            <div class="; DQ; Lit "info"; DQ; Lit ">"];
  [Lit "                <p><strong>üîí Security Notice:</strong></p>"];
  [Lit "                <p>This download link will expire in <strong>"; Fld D_expiry_hours;
   Lit " hour"; Fld D_plural; Lit "</strong> for your security.</p>"];
  [Lit "                <p>Please save the file to your device before the link expires.</p>"];
  [Lit "                <p>This link is unique to your session and cannot be shared.</p>"];
  [Lit "            </div>"];
  [Lit "        </div>"];
  [Lit "    </body>"];
  [Lit "    </html>"];
  [Lit "    "]
].

(** The text of the f-string of [generate_error_page]. *)
Definition error_page_template : list (list (part error_field)) := [
  [];
  [Lit "    <!DOCTYPE html>"];
  [Lit "    <html lang="; DQ; Lit "en"; DQ; Lit ">"];
  [Lit "    <head>"];
  [Lit "        <meta charset="; DQ; Lit "UTF-8"; DQ; Lit ">"];
  [Lit "        <meta name="; DQ; Lit "viewport"; DQ; Lit " content="; DQ;
   Lit "width=device-width, initial-scale=1.0"; DQ; Lit ">"];
  [Lit "        <title>Download Error - "; Fld E_app_name; Lit "</title>"];
  [Lit "        <style>"];
  [Lit "            body { "];
  [Lit "                font-family: 'Segoe UI', Tahoma, Geneva, Verdana, sans-serif; "];
  [Lit "                text-align: center; "];
  [Lit "                margin: 0;"];
  [Lit "                padding: 20px;"];
  [Lit "                background: linear-gradient(135deg, #ff6b6b 0%, #ee5a24 100%);"];
  [Lit "                color: white;"];
  [Lit "                min-height: 100vh;"];
  [Lit "                display: flex;"];
  [Lit "                align-items: center;"];
  [Lit "                justify-content: center;"];
  [Lit "            }"];
  [Lit "            .container { "];
  [Lit "                max-width: 600px; "];
  [Lit "                background: rgba(255, 255, 255, 0.1);"];
  [Lit "                backdrop-filter: blur(10px);"];
  [Lit "                border-radius: 20px;"];
  [Lit "                padding: 40px;"];
  [Lit "                box-shadow: 0 8px 32px rgba(0, 0, 0, 0.1);"];
  [Lit "                border: 1px solid rgba(255, 255, 255, 0.2);"];
  [Lit "            }"];
  [Lit "            .error { "];
  [Lit "                color: #ff4757; "];
  [Lit "                font-size: 4em;"];
  [Lit "                margin-bottom: 20px;"];
  [Lit "            }"];
  [Lit "            h1 {"];
  [Lit "                margin: 20px 0;"];
  [Lit "                font-size: 2em;"];
  [Lit "                font-weight: 300;"];
  [Lit "            }"];
  [Lit "            .app-name {"];
  [Lit "                font-size: 0.8em;"];
  [Lit "                opacity: 0.8;"];
  [Lit "                margin-bottom: 30px;"];
  [Lit "            }"];
  [Lit "            p {"];
  [Lit "                font-size: 1.1em;"];
  [Lit "                line-height: 1.6;"];
  [Lit "                margin: 15px 0;"];
  [Lit "            }"];
  [Lit "            .error-details {"];
  [Lit "                background: rgba(255, 255, 255, 0.1);"];
  [Lit "                border-radius: 15px;"];
  [Lit "                padding: 20px;"];
  [Lit "                margin: 20px 0;"];
  [Lit "                font-family: monospace;"];
  [Lit "                font-size: 0.9em;"];
  [Lit "                text-align: left;"];
  [Lit "                border: 1px solid rgba(255, 255, 255, 0.2);"];
  [Lit "                word-break: break-word;"];
  [Lit "            }"];
  [Lit "            .support-info {"];
  [Lit "                background: rgba(255, 255, 255, 0.1);"];
  [Lit "                border-radius: 15px;"];
  [Lit "                padding: 20px;"];
  [Lit "                margin-top: 30px;"];
  [Lit "                font-size: 0.95em;"];
  [Lit "                border: 1px solid rgba(255, 255, 255, 0.2);"];
  [Lit "            }"];
  [Lit "            .retry-button {"];
  [Lit "                display: inline-block;"];
  [Lit "                background: linear-gradient(45deg, #3498db, #2980b9);"];
  [Lit "                color: white;"];
  [Lit "                padding: 12px 25px;"];
  [Lit "                text-decoration: none;"];
  [Lit "                border-radius: 25px;"];
  [Lit "                margin: 15px 0;"];
  [Lit "                font-weight: bold;"];
  [Lit "                transition: all 0.3s ease;"];
  [Lit "            }"];
  [Lit "            .retry-button:hover {"];
  [Lit "                transform: translateY(-2px);"];
  [Lit "                box-shadow: 0 4px 15px rgba(52, 152, 219, 0.3);"];
  [Lit "            }"];
  [Lit "        </style>"];
  [Lit "    </head>"];
  [Lit "    <body>"];
  [Lit "        <div class="; DQ; Lit "container"; DQ; Lit ">"];
  [Lit "            <div class="; DQ; Lit "error"; DQ; Lit ">‚ö†Ô∏è</div>"];
  [Lit "            <div class="; DQ; Lit "app-name"; DQ; Lit ">"; Fld E_app_name; Lit "</div>"];
  [Lit "            <h1>"; Fld E_error_title; Lit "</h1>"];
  [Lit "            <p>We're sorry, but there was an error processing your secure download request.</p>"];
  [Lit "            "];
  [Lit "            <div class="; DQ; Lit "error-details"; DQ; Lit ">"];
  [Lit "                <strong>Error Details:</strong><br>"];
  [Lit "                "; Fld E_error_details];
  [Lit "            </div>"];
  [Lit "            "];
  [Lit "            <a href="; DQ; Lit "javascript:window.location.reload();"; DQ;
   Lit " class="; DQ; Lit "retry-button"; DQ; Lit ">üîÑ Try Again</a>"];
  [Lit "            "];
  [Lit "            <div class="; DQ; Lit "support-info"; DQ; Lit ">"];
  [Lit "                <p><strong>üÜò Need Help?</strong></p>"];
  [Lit "                <p>If this problem persists, please contact support with the error details above.</p>"];
  [Lit "                <p>You can also try:</p>"];
  [Lit "                <ul style="; DQ; Lit "text-align: left; display: inline-block;"; DQ;
   Lit ">"];
  [Lit "                    <li>Refreshing the page</li>"];
  [Lit "                    <li>Signing in again</li>"];
  [Lit "                    <li>Clearing your browser cache</li>"];
  [Lit "                    <li>Trying a different browser</li>"];
  [Lit "                </ul>"];
  [Lit "            </div>"];
  [Lit "        </div>"];
  [Lit "    </body>"];
  [Lit "    </html>"];
  [Lit "    "]
].

(** [object_key.split('/')[-1]]. *)
Definition file_name_of (object_key : string) : string :=
  last_item (split_slash object_key) "".

Definition generate_download_page
    (download_url : string) (expiry_seconds : Z) (app_name object_key : string)
    : string :=
  let expiry_hours := (expiry_seconds `div` 3600)%Z in
  let file_name := file_name_of object_key in
  fstring (fun f =>
             match f with
             | D_app_name => app_name
             | D_download_url => download_url
             | D_file_name => file_name
             | D_expiry_hours => str_of_int expiry_hours
             | D_plural => if negb (expiry_hours =? 1)%Z then "s" else ""
             end)
          download_page_template.

Definition generate_error_page (error_title error_details app_name : string) : string :=
  fstring (fun f =>
             match f with
             | E_app_name => app_name
             | E_error_title => error_title
             | E_error_details => error_details
             end)
          error_page_template.

(** ** The handler *)

(** The dictionary the handler returns. *)
Record response : Type := {
  statusCode : Z;
  headers : gmap string string;
  body : string
}.

(** Configuration from environment variables. *)
Definition BUCKET_NAME (environ : gmap string string) : string :=
  environ_get environ "BUCKET_NAME" "secure-photo-downloads".

Definition OBJECT_KEY (environ : gmap string string) : string :=
  environ_get environ "OBJECT_KEY" "photos/photos.zip".

Definition DOWNLOAD_EXPIRY (py : python) (environ : gmap string string) : result Z :=
  int_of_str py (environ_get environ "DOWNLOAD_EXPIRY" "3600").

Definition APP_NAME (environ : gmap string string) : string :=
  environ_get environ "APP_NAME" "Secure Photo Downloader".

(** [e.response['Error']] and [...['Code']]: a missing key raises. *)
Definition getitem_Error (e : client_error) : result error_info :=
  match response_Error e with
  | Some info => Ok info
  | None => Raise (KeyError "Error")
  end.

Definition getitem_Code (info : error_info) : result string :=
  match Code info with
  | Some c => Ok c
  | None => Raise (KeyError "Code")
  end.

(** [e.response.get('Error', {}).get('Code', 'Unknown')] and the same for
    ['Message'], whose default is [str(e)]. *)
Definition error_code_of (e : client_error) : string :=
  default "Unknown" (response_Error e ≫= Code).

Definition error_message_of (e : client_error) : string :=
  default (client_error_str e) (response_Error e ≫= Message).

Definition html_headers : gmap string string :=
  list_to_map [("Content-Type", "text/html")].

Definition no_cache_headers : gmap string string :=
  list_to_map [("Content-Type", "text/html");
               ("Cache-Control", "no-cache, no-store, must-revalidate");
               ("Pragma", "no-cache");
               ("Expires", "0")].

(** The existence check, lines 48 to 64.  [Some r] is the [return r] inside
    the [except] clause; [None] lets the handler go on. *)
Definition check_object_exists (py : python) (s3 : s3_client)
    (bucket key app_name : string) : M (option response) :=
  try_except
    (s3_head_object s3 bucket key;;
     print py (Object_exists key bucket);;
     mret None)
    (fun e =>
       match e with
       | ClientError ce =>
           Some (info ← lift (getitem_Error ce);
                 code ← lift (getitem_Code info);
                 if String.eqb code "404" then
                   print py (Object_not_found key bucket);;
                   mret (Some {|
                     statusCode := 404;
                     headers := html_headers;
                     body := generate_error_page
                               "File Not Found"
                               ("The requested file '" +:+ key +:+
                                "' was not found. Please contact support.")
                               app_name |})
                 else raise e)
       | _ => None
       end).

(** The look at the authorization code, lines 32 to 42. *)
Definition read_auth_code (py : python) (event : pyval) : M unit :=
  found ← lift (get event "queryStringParameters");
  let query_params := or_ found (PDict []) in
  auth_code ← lift (get query_params "code");
  if truthy auth_code then
    prefix ← lift (slice_to 10 auth_code);
    print py (Authorization_code_received prefix)
  else print py No_authorization_code.

(** The body of the outer [try], lines 32 to 85. *)
Definition issue_link (py : python) (boto3 : boto3_module) (event : pyval)
    (bucket key : string) (expiry : Z) (app_name : string) : M response :=
  read_auth_code py event;;
  s3 ← boto3_client boto3 "s3";
  returned ← check_object_exists py s3 bucket key app_name;
  match returned with
  | Some r => mret r
  | None =>
      presigned_url ← s3_generate_presigned_url s3 "get_object" bucket key expiry;
      print py (Generated_presigned_url (text_prefix 50 presigned_url));;
      mret {| statusCode := 200;
              headers := no_cache_headers;
              body := generate_download_page presigned_url expiry app_name key |}
  end.

(** The two outer [except] clauses, lines 87 to 103. *)
Definition on_exception (py : python) (app_name : string) (e : exn)
    : option (M response) :=
  Some match e with
       | ClientError ce =>
           print py (AWS_Error (py_str_exn e));;
           let error_code := error_code_of ce in
           let error_message := error_message_of ce in
           mret {| statusCode := 500;
                   headers := html_headers;
                   body := generate_error_page ("AWS Error: " +:+ error_code)
                                               error_message app_name |}
       | _ =>
           print py (General_Error (py_str_exn e));;
           mret {| statusCode := 500;
                   headers := html_headers;
                   body := generate_error_page "System Error" (py_str_exn e)
                                               app_name |}
       end.

(** [lambda_handler(event, context)]; [context] is never read.  The
    interpreter, the environment and the [boto3] module are what the
    handler reads from its surroundings. *)
Definition lambda_handler (py : python) (environ : gmap string string)
    (boto3 : boto3_module) (event : pyval) : M response :=
  print py (Event_received event);;
  let bucket := BUCKET_NAME environ in
  let key := OBJECT_KEY environ in
  expiry ← lift (DOWNLOAD_EXPIRY py environ);
  let app_name := APP_NAME environ in
  try_except (issue_link py boto3 event bucket key expiry app_name)
             (on_exception py app_name).

(** ** The runs of the handler

    What the handler answers in each of its cases, named so that the runs
    can be told apart. *)

(** The line the matching outer [except] clause logs for [e]. *)
Definition failure_line (e : exn) : log_line :=
  match e with
  | ClientError _ => AWS_Error (py_str_exn e)
  | _ => General_Error (py_str_exn e)
  end.

(** The response the matching outer [except] clause builds for [e]. *)
Definition failure_response (app_name : string) (e : exn) : response :=
  match e with
  | ClientError ce =>
      {| statusCode := 500;
         headers := html_headers;
         body := generate_error_page ("AWS Error: " +:+ error_code_of ce)
                                     (error_message_of ce) app_name |}
  | _ =>
      {| statusCode := 500;
         headers := html_headers;
         body := generate_error_page "System Error" (py_str_exn e) app_name |}
  end.

Definition not_found_response (key app_name : string) : response :=
  {| statusCode := 404;
     headers := html_headers;
     body := generate_error_page
               "File Not Found"
               ("The requested file '" +:+ key +:+
                "' was not found. Please contact support.")
               app_name |}.

Definition success_response (presigned_url : string) (expiry : Z)
    (app_name key : string) : response :=
  {| statusCode := 200;
     headers := no_cache_headers;
     body := generate_download_page presigned_url expiry app_name key |}.

(** The exception that leaves the existence check when [head_object] raised
    [e]; [None] when the check answers 404 itself. *)
Definition probe_raises (e : exn) : option exn :=
  match e with
  | ClientError ce =>
      match response_Error ce with
      | None => Some (KeyError "Error")
      | Some info =>
          match Code info with
          | None => Some (KeyError "Code")
          | Some c => if String.eqb c "404" then None else Some e
          end
      end
  | _ => Some e
  end.

(** The trace up to the creation of the client. *)
Definition opening (py : python) (event : pyval) : list effect :=
  Print (Event_received event) :: effects (read_auth_code py event).

(** The eight runs of the handler. *)
Inductive run_of (py : python) (environ : gmap string string)
    (boto3 : boto3_module) (event : pyval) : M response -> Prop :=
| run_log_error e :
    json_dumps_error py event = Some e ->
    run_of py environ boto3 event ([], Raise e)
| run_config_error e :
    json_dumps_error py event = None ->
    DOWNLOAD_EXPIRY py environ = Raise e ->
    run_of py environ boto3 event ([Print (Event_received event)], Raise e)
| run_request_error x e :
    json_dumps_error py event = None ->
    DOWNLOAD_EXPIRY py environ = Ok x ->
    outcome (read_auth_code py event) = Raise e ->
    run_of py environ boto3 event
      (opening py event ++ [Print (failure_line e)],
       Ok (failure_response (APP_NAME environ) e))
| run_client_error x e :
    json_dumps_error py event = None ->
    DOWNLOAD_EXPIRY py environ = Ok x ->
    outcome (read_auth_code py event) = Ok () ->
    client boto3 "s3" = Raise e ->
    run_of py environ boto3 event
      (opening py event ++ [Client "s3"; Print (failure_line e)],
       Ok (failure_response (APP_NAME environ) e))
| run_not_found x s3 e :
    json_dumps_error py event = None ->
    DOWNLOAD_EXPIRY py environ = Ok x ->
    outcome (read_auth_code py event) = Ok () ->
    client boto3 "s3" = Ok s3 ->
    head_object s3 (BUCKET_NAME environ) (OBJECT_KEY environ) = Raise e ->
    probe_raises e = None ->
    run_of py environ boto3 event
      (opening py event ++
       [Client "s3";
        S3 (Head_object (BUCKET_NAME environ) (OBJECT_KEY environ) (Raise e));
        Print (Object_not_found (OBJECT_KEY environ) (BUCKET_NAME environ))],
       Ok (not_found_response (OBJECT_KEY environ) (APP_NAME environ)))
| run_probe_fault x s3 e e' :
    json_dumps_error py event = None ->
    DOWNLOAD_EXPIRY py environ = Ok x ->
    outcome (read_auth_code py event) = Ok () ->
    client boto3 "s3" = Ok s3 ->
    head_object s3 (BUCKET_NAME environ) (OBJECT_KEY environ) = Raise e ->
    probe_raises e = Some e' ->
    run_of py environ boto3 event
      (opening py event ++
       [Client "s3";
        S3 (Head_object (BUCKET_NAME environ) (OBJECT_KEY environ) (Raise e));
        Print (failure_line e')],
       Ok (failure_response (APP_NAME environ) e'))
| run_sign_fault x s3 e :
    json_dumps_error py event = None ->
    DOWNLOAD_EXPIRY py environ = Ok x ->
    outcome (read_auth_code py event) = Ok () ->
    client boto3 "s3" = Ok s3 ->
    head_object s3 (BUCKET_NAME environ) (OBJECT_KEY environ) = Ok () ->
    generate_presigned_url s3 "get_object" (BUCKET_NAME environ)
      (OBJECT_KEY environ) x = Raise e ->
    run_of py environ boto3 event
      (opening py event ++
       [Client "s3";
        S3 (Head_object (BUCKET_NAME environ) (OBJECT_KEY environ) (Ok ()));
        Print (Object_exists (OBJECT_KEY environ) (BUCKET_NAME environ));
        S3 (Generate_presigned_url "get_object" (BUCKET_NAME environ)
              (OBJECT_KEY environ) x (Raise e));
        Print (failure_line e)],
       Ok (failure_response (APP_NAME environ) e))
| run_success x s3 url :
    json_dumps_error py event = None ->
    DOWNLOAD_EXPIRY py environ = Ok x ->
    outcome (read_auth_code py event) = Ok () ->
    client boto3 "s3" = Ok s3 ->
    head_object s3 (BUCKET_NAME environ) (OBJECT_KEY environ) = Ok () ->
    generate_presigned_url s3 "get_object" (BUCKET_NAME environ)
      (OBJECT_KEY environ) x = Ok url ->
    run_of py environ boto3 event
      (opening py event ++
       [Client "s3";
        S3 (Head_object (BUCKET_NAME environ) (OBJECT_KEY environ) (Ok ()));
        Print (Object_exists (OBJECT_KEY environ) (BUCKET_NAME environ));
        S3 (Generate_presigned_url "get_object" (BUCKET_NAME environ)
              (OBJECT_KEY environ) x (Ok url));
        Print (Generated_presigned_url (text_prefix 50 url))],
       Ok (success_response url x (APP_NAME environ) (OBJECT_KEY environ))).

(** ** Text *)

(** [needle in hay]. *)
Definition contains (needle hay : string) : Prop :=
  exists pre post, hay = pre +:+ needle +:+ post.

(** Whether the character [c] occurs in [s]. *)
Fixpoint has_char (c : ascii) (s : string) : bool :=
  match s with
  | "" => false
  | String x rest => Ascii.eqb x c || has_char c rest
  end.

(** Whether [hay] begins with [needle]. *)
Fixpoint starts_with (needle hay : string) : bool :=
  match needle, hay with
  | "", _ => true
  | String _ _, "" => false
  | String a needle', String b hay' => Ascii.eqb a b && starts_with needle' hay'
  end.

(** At how many places of [hay] the text [needle] begins. *)
Fixpoint occurrences (needle hay : string) : nat :=
  match hay with
  | "" => if starts_with needle "" then 1 else 0
  | String _ rest =>
      (if starts_with needle hay then 1 else 0) + occurrences needle rest
  end.

(** Counting in an f-string whose fields are not known: [begins] tells
    whether [needle] begins [s +:+ t] whatever [t] is, and is [None] when
    [s] ends before that is settled; [occurrences_in] counts the places of
    a literal at which the needle begins, when each is settled. *)
Fixpoint begins (needle s : string) : option bool :=
  match needle, s with
  | "", _ => Some true
  | String _ _, "" => None
  | String a needle', String b s' =>
      if Ascii.eqb a b then begins needle' s' else Some false
  end.

Fixpoint occurrences_in (needle s : string) : option nat :=
  match s with
  | "" => Some 0
  | String _ rest =>
      match begins needle s, occurrences_in needle rest with
      | Some b, Some k => Some ((if b then 1 else 0) + k)
      | _, _ => None
      end
  end.

(** The parts of a template, its lines joined by newlines and adjacent
    literals merged. *)
Fixpoint join_lines {F} (lines : list (list (part F))) : list (part F) :=
  match lines with
  | [] => []
  | [line] => line
  | line :: rest => line ++ Lit nl :: join_lines rest
  end.

Fixpoint merge_literals {F} (parts : list (part F)) : list (part F) :=
  match parts with
  | [] => []
  | Fld f :: rest => Fld f :: merge_literals rest
  | Lit s :: rest =>
      match merge_literals rest with
      | Lit s' :: rest' => Lit (s +:+ s') :: rest'
      | rest' => Lit s :: rest'
      end
  end.

(** The occurrences of [needle] in the literal text of the parts. *)
Fixpoint literal_occurrences {F} (needle : string) (parts : list (part F))
    : option nat :=
  match parts with
  | [] => Some 0
  | Lit s :: rest =>
      match occurrences_in needle s, literal_occurrences needle rest with
      | Some k, Some k' => Some (k + k')
      | _, _ => None
      end
  | Fld _ :: rest => literal_occurrences needle rest
  end.

(** The opening of a [meta] element that refreshes or redirects. *)
Definition refresh_directive : string :=
  "<meta http-equiv=" +:+ dq +:+ "refresh" +:+ dq.






(** ** Shapes of values and faults *)

(** Whether a value is a [dict], the only value with a [get] method. *)
Definition is_dict (v : pyval) : bool :=
  match v with PDict _ => true | _ => false end.

(** Whether a value has a subscript at all ([str], [list], [dict]). *)
Definition has_subscript (v : pyval) : bool :=
  match v with PStr _ | PList _ | PDict _ => true | _ => false end.


(** The query parameters the handler looks into:
    [event.get('queryStringParameters') or {}] for an event with [items]. *)
Definition query_params_of (items : list (list N * pyval)) : pyval :=
  or_ (default PNone (dict_get items (ustr_of "queryStringParameters")))
      (PDict []).

(** Whether a line is formatted and written without an exception. *)
Definition is_written (py : python) (line : log_line) : bool :=
  match print_error py line with None => true | Some _ => false end.

(** The events on which lines 33 to 42 raise nothing: an object whose
    query parameters are false or an object, and whose code is false, or
    a [str] or a list whose first ten items can be logged. *)
Definition code_is_read (py : python) (event : pyval) : bool :=
  match event with
  | PDict items =>
      match query_params_of items with
      | PDict params =>
          let code := default PNone (dict_get params (ustr_of "code")) in
          if truthy code then
            match code with
            | PStr s => is_written py (Authorization_code_received (PStr (take 10 s)))
            | PList l => is_written py (Authorization_code_received (PList (take 10 l)))
            | _ => false
            end
          else true
      | _ => false
      end
  | _ => false
  end.

(** The invocations that get as far as the store: the event is logged, the
    expiry is the integer [expiry], the code is read, and [boto3] hands out
    the client [s3]. *)
Definition reaches_store (py : python) (environ : gmap string string)
    (boto3 : boto3_module) (event : pyval) (expiry : Z) (s3 : s3_client) : Prop :=
  json_dumps_error py event = None
  /\ DOWNLOAD_EXPIRY py environ = Ok expiry
  /\ code_is_read py event = true
  /\ client boto3 "s3" = Ok s3.


(** The element that shows the application name on both pages. *)
Definition app_badge (app_name : string) : string :=
  "<div class=" +:+ dq +:+ "app-name" +:+ dq +:+ ">" +:+ app_name +:+ "</div>".

(** The page of the catch-all [except] clause. *)
Definition system_error_response (app_name message : string) : response :=
  {| statusCode := 500;
     headers := html_headers;
     body := generate_error_page "System Error" message app_name |}.

(** ** Sample invocations *)

(** An object and a [str] of an event, from ASCII literals. *)
Definition obj (items : list (string * pyval)) : pyval :=
  PDict ((fun kv => (ustr_of kv.1, kv.2)) <$> items).

Definition txt (s : string) : pyval := PStr (ustr_of s).

(** The error of a standard output that encodes UTF-8 strictly: the first
    run of surrogates of the text, reported as CPython words it. *)
Definition hex_digit (n : N) : ascii :=
  ascii_of_N (if (n <? 10)%N then 48 + n else 87 + n).

Definition hex4 (c : N) : string :=
  String (hex_digit (c / 4096 mod 16))
    (String (hex_digit (c / 256 mod 16))
       (String (hex_digit (c / 16 mod 16))
          (String (hex_digit (c mod 16)) ""))).

Fixpoint surrogate_run (t : list N) : nat :=
  match t with
  | c :: rest => if is_surrogate c then S (surrogate_run rest) else 0
  | [] => 0
  end.

Fixpoint strict_utf8_error_from (position : nat) (t : list N) : option exn :=
  match t with
  | [] => None
  | c :: rest =>
      if is_surrogate c then
        let last := (position + surrogate_run rest)%nat in
        Some (UnicodeEncodeError
                (if (last =? position)%nat then
                   "'utf-8' codec can't encode character '\u" +:+ hex4 c +:+
                   "' in position " +:+ str_of_int (Z.of_nat position) +:+
                   ": surrogates not allowed"
                 else
                   "'utf-8' codec can't encode characters in position " +:+
                   str_of_int (Z.of_nat position) +:+ "-" +:+
                   str_of_int (Z.of_nat last) +:+ ": surrogates not allowed"))
      else strict_utf8_error_from (S position) rest
  end.

(** Whether a value holds an integer of more than 4300 digits, which
    [json.dumps] cannot print. *)
Fixpoint has_long_int (v : pyval) : bool :=
  match v with
  | PInt n => (10 ^ Z.of_nat int_max_str_digits <=? Z.abs n)%Z
  | PList l => existsb has_long_int l
  | PDict items => existsb (fun kv => has_long_int (snd kv)) items
  | _ => false
  end.

Definition digit_limit_error (v : pyval) : option exn :=
  if has_long_int v then
    Some (ValueError
            ("Exceeds the limit (4300 digits) for integer string conversion; " +:+
             "use sys.set_int_max_str_digits() to increase the limit"))
  else None.

(** An interpreter for the samples: [json.dumps] rejects integers of more
    than 4300 digits (the nesting of the samples is shallow), [str]
    accepts what it is given, the standard output encodes UTF-8 strictly,
    and the message of [int] is the one CPython gives for ['1h'], the one
    text the samples have it reject. *)
Definition sample_python : python :=
  {| json_dumps_error := digit_limit_error;
     str_error := fun _ => None;
     stdout_error := strict_utf8_error_from 0;
     int_error_text := fun _ => "invalid literal for int() with base 10: '1h'" |}.

Definition sample_environ : gmap string string :=
  list_to_map [("BUCKET_NAME", "b"); ("OBJECT_KEY", "photos/x.zip");
               ("DOWNLOAD_EXPIRY", "3600"); ("APP_NAME", "App")].

(** A request that carries an authorization code, and one that does not. *)
Definition sample_event : pyval :=
  obj [("queryStringParameters", obj [("code", txt "4f1c2d3e-authcode")])].

Definition plain_event : pyval := obj [("queryStringParameters", PNone)].

(** A request whose code is ['abc'], and one whose code is ['abc'] after a
    lone surrogate, as [json.loads] builds it from [\ud800abc]. *)
Definition abc_event : pyval :=
  obj [("queryStringParameters", obj [("code", txt "abc")])].

Definition surrogate_event : pyval :=
  obj [("queryStringParameters",
        obj [("code", PStr (0xD800%N :: ustr_of "abc"))])].

(** An event with a number of 5001 digits, which [json.dumps] rejects. *)
Definition long_number_event : pyval := obj [("n", PInt (10 ^ 5000))].

(** An environment whose expiry is not a number, and one whose expiry is
    zero. *)
Definition misconfigured_environ : gmap string string :=
  <["DOWNLOAD_EXPIRY" := "1h"]> sample_environ.



Definition store_error (code message : string) : exn :=
  ClientError {| response_Error := Some {| Code := Some code;
                                           Message := Some message |};
                 client_error_str :=
                   "An error occurred (" +:+ code +:+ "): " +:+ message |}.


(** A store that holds the object and signs. *)
Definition sample_s3 : s3_client :=
  {| head_object := fun _ _ => Ok ();
     generate_presigned_url := fun _ _ _ _ => Ok "https://signed/url" |}.

Definition sample_boto3 : boto3_module := {| client := fun _ => Ok sample_s3 |}.

(** A store whose probe fails with the given exception. *)
Definition probe_failing_s3 (e : exn) : s3_client :=
  {| head_object := fun _ _ => Raise e;
     generate_presigned_url := fun _ _ _ _ => Ok "https://signed/url" |}.

Definition probe_failing (e : exn) : boto3_module :=
  {| client := fun _ => Ok (probe_failing_s3 e) |}.

(** A store that holds the object and whose signing fails. *)
Definition sign_failing_s3 (e : exn) : s3_client :=
  {| head_object := fun _ _ => Ok ();
     generate_presigned_url := fun _ _ _ _ => Raise e |}.

Definition sign_failing (e : exn) : boto3_module :=
  {| client := fun _ => Ok (sign_failing_s3 e) |}.

(** * Properties *)

#[local] Arguments ustr_of : simpl never.

(** ** Text *)

Lemma append_nil_r (s : string) : s +:+ "" = s.
Proof. induction s as [|c s IH]; simpl; congruence. Qed.

Lemma append_assoc (a b c : string) : (a +:+ b) +:+ c = a +:+ b +:+ c.
Proof. induction a as [|x a IH]; simpl; congruence. Qed.

Lemma contains_refl (s : string) : contains s s.
Proof. exists "", "". simpl. by rewrite append_nil_r. Qed.

Lemma contains_trans (a b c : string) :
  contains a b -> contains b c -> contains a c.
Proof.
  intros (p1 & q1 & ->) (p2 & q2 & ->).
  exists (p2 +:+ p1), (q1 +:+ q2). by rewrite !append_assoc.
Qed.

Lemma contains_append_l (n pre s : string) :
  contains n s -> contains n (pre +:+ s).
Proof. intros (p & q & ->). exists (pre +:+ p), q. by rewrite append_assoc. Qed.

Lemma contains_append_r (n s post : string) :
  contains n s -> contains n (s +:+ post).
Proof. intros (p & q & ->). exists p, (q +:+ post). by rewrite !append_assoc. Qed.

(** Every rendered line of an f-string is part of its text. *)
Lemma fstring_contains_line {F} (value : F -> string) lines line :
  line ∈ lines -> contains (render_line value line) (fstring value lines).
Proof.
  unfold fstring. induction lines as [|l ls IH]; intros Hin.
  - by apply elem_of_nil in Hin.
  - apply elem_of_cons in Hin as [-> | Hin].
    + destruct ls as [|l' ls]; simpl; [apply contains_refl|].
      apply contains_append_r, contains_refl.
    + destruct ls as [|l' ls]; [by apply elem_of_nil in Hin|].
      change (contains (render_line value line)
                (render_line value l +:+ nl +:+
                 String.concat nl (map (render_line value) (l' :: ls)))).
      by apply contains_append_l, contains_append_l, IH.
Qed.

(** A piece of line [i] of an f-string is part of its text. *)
Lemma fstring_contains {F} (value : F -> string) lines (i : nat) line needle :
  lines !! i = Some line ->
  contains needle (render_line value line) ->
  contains needle (fstring value lines).
Proof.
  intros Hi Hline. eapply contains_trans; [exact Hline|].
  apply fstring_contains_line. by eapply list_elem_of_lookup_2.
Qed.

Lemma contains_cons (n : string) (c : ascii) (s : string) :
  contains n s -> contains n (String c s).
Proof. intros (p & q & ->). by exists (String c p), q. Qed.

Lemma split_slash_nonempty (s : string) : split_slash s <> [].
Proof.
  induction s as [|c s IH]; simpl; [done|].
  destruct (Ascii.eqb c "/"); [done|]. by destruct (split_slash s).
Qed.

(** Splitting [pre/suf] splits both sides. *)
Lemma split_slash_app (pre suf : string) :
  split_slash (pre +:+ "/" +:+ suf) = (split_slash pre ++ split_slash suf)%list.
Proof.
  induction pre as [|c pre IH]; simpl in *; [done|].
  destruct (Ascii.eqb c "/"); rewrite IH; [done|].
  pose proof (split_slash_nonempty pre). by destruct (split_slash pre).
Qed.

Lemma split_slash_plain (s : string) :
  ~ contains "/" s -> split_slash s = [s].
Proof.
  induction s as [|c s IH]; intros Hno; simpl; [done|].
  destruct (Ascii.eqb_spec c "/") as [-> | Hc].
  - destruct Hno. by exists "", s.
  - rewrite IH; [done|]. intros (p & q & ->). apply Hno.
    by exists (String c p), q.
Qed.

Lemma has_char_contains (c : ascii) (s : string) :
  has_char c s = true <-> contains (String c "") s.
Proof.
  induction s as [|x s IH]; simpl.
  - split; [done|]. intros (p & q & Heq). by destruct p.
  - rewrite orb_true_iff, IH. split.
    + intros [Hx | (p & q & ->)].
      * apply Ascii.eqb_eq in Hx as ->. by exists "", s.
      * by exists (String x p), q.
    + intros (p & q & Heq). destruct p as [|y p]; simpl in Heq.
      * left. injection Heq as -> _. apply Ascii.eqb_refl.
      * right. injection Heq as _ ->. by exists p, q.
Qed.

#[global] Instance contains_char_dec (c : ascii) (s : string) :
  Decision (contains (String c "") s).
Proof.
  refine (cast_if (decide (has_char c s = true)));
    by rewrite <- has_char_contains.
Defined.

(** Looks for the needle at the head of the text, then one character on. *)
Ltac find_needle :=
  first [ eexists "", _; simpl; rewrite ?append_assoc; simpl; reflexivity
        | apply contains_cons; find_needle ].

(** Shows that line [i] of a template holds the needle. *)
Ltac in_line i :=
  eapply (fstring_contains _ _ i);
  [ vm_compute; reflexivity | unfold render_line; simpl; find_needle ].

(** ** Counting in a page *)

Lemma render_line_app {F} (value : F -> string) (a b : list (part F)) :
  render_line value (a ++ b) = render_line value a +:+ render_line value b.
Proof.
  unfold render_line. induction a as [|p a IH]; simpl; [done|].
  by rewrite IH, append_assoc.
Qed.

Lemma fstring_join_lines {F} (value : F -> string) lines :
  fstring value lines = render_line value (join_lines lines).
Proof.
  unfold fstring. induction lines as [|l ls IH]; [done|].
  destruct ls as [|l' ls]; [done|].
  change (render_line value l +:+ nl +:+
          String.concat nl (map (render_line value) (l' :: ls))
          = render_line value (l ++ Lit nl :: join_lines (l' :: ls))).
  by rewrite IH, render_line_app.
Qed.

Lemma render_merge_literals {F} (value : F -> string) (parts : list (part F)) :
  render_line value (merge_literals parts) = render_line value parts.
Proof.
  unfold render_line. induction parts as [|[s|f] parts IH]; simpl; [done| |].
  - rewrite <- IH. destruct (merge_literals parts) as [|[s'|f'] rest]; simpl;
      by rewrite ?append_assoc.
  - by rewrite IH.
Qed.

Lemma begins_sound (n s t : string) (b : bool) :
  begins n s = Some b -> starts_with n (s +:+ t) = b.
Proof.
  revert s. induction n as [|a n IH]; intros s; simpl.
  - intros [= <-]. by destruct (s +:+ t).
  - destruct s as [|c s]; simpl; [done|].
    destruct (Ascii.eqb a c); simpl; [apply IH | by intros [= <-]].
Qed.

Lemma occurrences_in_sound (n s t : string) (k : nat) :
  occurrences_in n s = Some k ->
  occurrences n (s +:+ t) = (k + occurrences n t)%nat.
Proof.
  revert k. induction s as [|c s IH]; intros k.
  - by intros [= <-].
  - cbn [occurrences_in].
    destruct (begins n (String c s)) as [b|] eqn:Hb; [|done].
    destruct (occurrences_in n s) as [k'|]; [|done]. intros [= <-].
    change (occurrences n (String c s +:+ t))
      with ((if starts_with n (String c s +:+ t) then 1 else 0)
            + occurrences n (s +:+ t))%nat.
    rewrite (begins_sound _ _ t _ Hb), (IH k' eq_refl). lia.
Qed.

(** A text without the first character of the needle holds no beginning
    of it. *)
Lemma occurrences_skip (c : ascii) (n s t : string) :
  has_char c s = false ->
  occurrences (String c n) (s +:+ t) = occurrences (String c n) t.
Proof.
  induction s as [|x s IH]; [done|]. cbn [has_char].
  intros [Hx Hs]%orb_false_iff.
  change (occurrences (String c n) (String x s +:+ t))
    with ((if starts_with (String c n) (String x (s +:+ t)) then 1 else 0)
          + occurrences (String c n) (s +:+ t))%nat.
  rewrite (IH Hs). cbn [starts_with].
  rewrite Ascii.eqb_sym in Hx. by rewrite Hx.
Qed.

Lemma literal_occurrences_sound {F} (value : F -> string) (c : ascii) (n : string)
    (parts : list (part F)) (k : nat) :
  (forall f, has_char c (value f) = false) ->
  literal_occurrences (String c n) parts = Some k ->
  occurrences (String c n) (render_line value parts) = k.
Proof.
  unfold render_line. intros Hfields. revert k.
  induction parts as [|[s|f] parts IH]; intros k; cbn [literal_occurrences].
  - by intros [= <-].
  - destruct (occurrences_in (String c n) s) as [k1|] eqn:Hk1; [|done].
    destruct (literal_occurrences (String c n) parts) as [k2|]; [|done].
    intros [= <-]. cbn [foldr part_text].
    by rewrite (occurrences_in_sound _ _ _ _ Hk1), (IH k2).
  - intros Hk. cbn [foldr part_text]. rewrite occurrences_skip; [|done].
    by apply IH.
Qed.

(** The occurrences of a needle in a page whose fields are free of its
    first character are those of the literal text of the template. *)
Lemma fstring_occurrences {F} (value : F -> string) (c : ascii) (n : string)
    (lines : list (list (part F))) (k : nat) :
  (forall f, has_char c (value f) = false) ->
  literal_occurrences (String c n) (merge_literals (join_lines lines)) = Some k ->
  occurrences (String c n) (fstring value lines) = k.
Proof.
  intros Hfields Hk.
  rewrite fstring_join_lines, <- render_merge_literals.
  by apply literal_occurrences_sound.
Qed.



(** ** The download page *)

(** [C7] The file name shown on the download page, after [File:], is
    [file_name_of object_key]: the text after the last ['/'] of a key that
    has one, and the key itself when it has none. *)
Theorem displayed_file_name
    (download_url : string) (expiry_seconds : Z) (app_name object_key : string) :
  contains ("File:</strong> " +:+ file_name_of object_key)
           (generate_download_page download_url expiry_seconds app_name object_key)
  /\ (forall pre suf,
        object_key = pre +:+ "/" +:+ suf -> ~ contains "/" suf ->
        file_name_of object_key = suf)
  /\ (~ contains "/" object_key -> file_name_of object_key = object_key).
Proof.
  split; [|split].
  - unfold generate_download_page. in_line 131%nat.
  - intros pre suf -> Hno. unfold file_name_of, last_item.
    rewrite split_slash_app, (split_slash_plain suf Hno). apply last_last.
  - intros Hno. unfold file_name_of. by rewrite split_slash_plain.
Qed.

Lemma displayed_file_name_witness :
  file_name_of "photos/2024/album.zip" = "album.zip"
  /\ file_name_of "album.zip" = "album.zip".
Proof.
  destruct (displayed_file_name "u" 3600 "App" "photos/2024/album.zip")
    as (_ & Hslash & _).
  destruct (displayed_file_name "u" 3600 "App" "album.zip") as (_ & _ & Hplain).
  split.
  - apply (Hslash "photos/2024" "album.zip"); [reflexivity|].
    apply (bool_decide_unpack _). vm_compute. exact I.
  - apply Hplain. apply (bool_decide_unpack _). vm_compute. exact I.
Defined.

(** [C8] The download page states the lifetime of the link in whole hours,
    [expiry_seconds // 3600], followed by [hour], or [hours] when the
    number is not 1. *)
Theorem displayed_expiry_hours
    (download_url : string) (expiry_seconds : Z) (app_name object_key : string) :
  let hours := (expiry_seconds `div` 3600)%Z in
  contains ("This download link will expire in <strong>" +:+ str_of_int hours +:+
            " hour" +:+ (if (hours =? 1)%Z then "" else "s") +:+ "</strong>")
           (generate_download_page download_url expiry_seconds app_name object_key).
Proof.
  intros hours. unfold generate_download_page. fold hours.
  destruct (hours =? 1)%Z; in_line 139%nat.
Qed.

Example one_hour (download_url app_name object_key : string) :
  contains "expire in <strong>1 hour</strong>"
           (generate_download_page download_url 3600 app_name object_key).
Proof. unfold generate_download_page. in_line 139%nat. Qed.

Example two_hours (download_url app_name object_key : string) :
  contains "expire in <strong>2 hours</strong>"
           (generate_download_page download_url 7200 app_name object_key).
Proof. unfold generate_download_page. in_line 139%nat. Qed.


(** The error page holds no refresh directive of its own. *)
Lemma error_page_no_directive title details app :
  has_char "<" title = false ->
  has_char "<" details = false ->
  has_char "<" app = false ->
  occurrences refresh_directive (generate_error_page title details app) = 0%nat.
Proof.
  intros Htitle Hdetails Happ. unfold generate_error_page.
  apply (fstring_occurrences _ "<"%char); [|by vm_compute].
  by intros [| |].
Qed.

(** ** The runs of the handler *)

Section Runs.

Context (py : python) (environ : gmap string string) (boto3 : boto3_module)
  (event : pyval).

Lemma print_effects (line : log_line) :
  Forall (fun ev => is_print ev = true) (effects (print py line)).
Proof. unfold print. destruct (print_error py line); by repeat constructor. Qed.

Lemma read_auth_code_prints :
  Forall (fun ev => is_print ev = true) (effects (read_auth_code py event)).
Proof.
  unfold read_auth_code.
  destruct (get event "queryStringParameters") as [found|e]; simpl; [|done].
  destruct (get (or_ found (PDict [])) "code") as [code|e]; simpl; [|done].
  destruct (truthy code); simpl; [|by repeat constructor].
  destruct (slice_to 10 code) as [prefix|e]; simpl; [|done].
  pose proof (print_effects (Authorization_code_received prefix)) as Hp.
  by destruct (print py (Authorization_code_received prefix)) as [w r].
Qed.

(** Lines 33 to 42 raise nothing exactly on the events of
    [code_is_read]. *)
Lemma read_auth_code_ok :
  outcome (read_auth_code py event) = Ok () <-> code_is_read py event = true.
Proof.
  unfold read_auth_code, code_is_read, query_params_of.
  destruct event as [| | | | | |items]; try done. cbn [get lift mbind M_bind].
  set (found := default PNone (dict_get items (ustr_of "queryStringParameters"))).
  cbn. destruct (or_ found (PDict [])) as [| | | | | |params]; try done.
  cbn. set (code := default PNone (dict_get params (ustr_of "code"))).
  destruct (truthy code) eqn:Ht.
  - unfold is_written, print.
    destruct code as [| | | |s|l|d]; try done; cbn.
    all: match goal with
         | |- context [match ?x with Some _ => false | None => true end] =>
             by destruct x
         end.
  - by cbn.
Qed.

#[local] Arguments on_exception : simpl never.
#[local] Arguments check_object_exists : simpl never.

Lemma on_exception_eq (app_name : string) (e : exn) :
  on_exception py app_name e
  = Some ([Print (failure_line e)], Ok (failure_response app_name e)).
Proof. by destruct e. Qed.

Lemma check_object_exists_ok (s3 : s3_client) (bucket key app_name : string) :
  head_object s3 bucket key = Ok () ->
  check_object_exists py s3 bucket key app_name
  = ([S3 (Head_object bucket key (Ok ())); Print (Object_exists key bucket)],
     Ok None).
Proof.
  intros H. unfold check_object_exists, s3_head_object. by rewrite H.
Qed.

Lemma check_object_exists_raise (s3 : s3_client) (bucket key app_name : string) e :
  head_object s3 bucket key = Raise e ->
  check_object_exists py s3 bucket key app_name
  = match probe_raises e with
    | None =>
        ([S3 (Head_object bucket key (Raise e));
          Print (Object_not_found key bucket)],
         Ok (Some (not_found_response key app_name)))
    | Some e' => ([S3 (Head_object bucket key (Raise e))], Raise e')
    end.
Proof.
  intros H. unfold check_object_exists, s3_head_object, probe_raises.
  rewrite H. simpl. destruct e as [ce| | | | | |]; try done.
  unfold getitem_Error. destruct (response_Error ce) as [info|]; [|done].
  unfold getitem_Code. simpl. destruct (Code info) as [c|]; [|done].
  simpl. by destruct (String.eqb c "404").
Qed.

(** Every invocation is one of the eight runs. *)
Lemma handler_run :
  run_of py environ boto3 event (lambda_handler py environ boto3 event).
Proof.
  unfold lambda_handler, print. cbn [print_error].
  destruct (json_dumps_error py event) as [e|] eqn:Hlog;
    [by apply run_log_error|].
  cbn [mbind M_bind lift app].
  destruct (DOWNLOAD_EXPIRY py environ) as [x|e] eqn:Hx;
    [|by apply run_config_error].
  unfold issue_link, boto3_client, s3_generate_presigned_url.
  assert (exists w r, read_auth_code py event = (w, r)
                      /\ opening py event = Print (Event_received event) :: w
                      /\ outcome (read_auth_code py event) = r)
    as (w & r & Hread & Hw & Hr).
  { unfold opening. destruct (read_auth_code py event); eauto. }
  rewrite Hread.
  assert (forall t, Print (Event_received event) :: w ++ t = opening py event ++ t)
    as Ht by (intros t; by rewrite Hw).
  destruct r as [[]|e]; cbn.
  2:{ rewrite on_exception_eq; cbn. rewrite <- ?app_assoc; cbn; rewrite Ht.
      by eapply run_request_error. }
  destruct (client boto3 "s3") as [s3|e] eqn:Hc; cbn.
  2:{ rewrite on_exception_eq; cbn. rewrite <- ?app_assoc; cbn; rewrite Ht.
      by eapply run_client_error. }
  destruct (head_object s3 (BUCKET_NAME environ) (OBJECT_KEY environ))
    as [[]|e] eqn:Hhead.
  2:{ rewrite (check_object_exists_raise _ _ _ _ _ Hhead).
      destruct (probe_raises e) as [e'|] eqn:Hp; cbn.
      - rewrite on_exception_eq; cbn. rewrite <- ?app_assoc; cbn; rewrite Ht.
        by eapply run_probe_fault.
      - rewrite <- ?app_assoc; cbn; rewrite Ht. by eapply run_not_found. }
  rewrite (check_object_exists_ok _ _ _ _ Hhead). cbn.
  destruct (generate_presigned_url s3 "get_object" (BUCKET_NAME environ)
              (OBJECT_KEY environ) x) as [url|e] eqn:Hsign; cbn.
  - rewrite <- ?app_assoc; cbn; rewrite Ht. by eapply run_success.
  - rewrite on_exception_eq; cbn. rewrite <- ?app_assoc; cbn; rewrite Ht.
    by eapply run_sign_fault.
Qed.

End Runs.

(** The run of an invocation that reaches the store. *)
Ltac reached H :=
  let Hlog := fresh "Hlog" in
  let Hx := fresh "Hx" in
  let Hcode := fresh "Hcode" in
  let Hclient := fresh "Hclient" in
  destruct H as (Hlog & Hx & Hcode & Hclient);
  apply read_auth_code_ok in Hcode.

(** Closes the runs that contradict what is known of the invocation. *)
Ltac same_run :=
  repeat match goal with
         | H1 : ?a = _, H2 : ?a = _ |- _ => rewrite H1 in H2; simplify_eq
         end.

(** ** The pages and the responses *)



Lemma error_page_title title details app :
  contains ("<h1>" +:+ title +:+ "</h1>") (generate_error_page title details app).
Proof. unfold generate_error_page. in_line 89%nat. Qed.

Lemma error_page_details title details app :
  contains details (generate_error_page title details app).
Proof. unfold generate_error_page. in_line 94%nat. Qed.

Lemma failure_response_status app e : statusCode (failure_response app e) = 500%Z.
Proof. by destruct e. Qed.


Lemma failure_response_body app e :
  exists title details,
    body (failure_response app e) = generate_error_page title details app.
Proof. destruct e; simpl; eauto. Qed.


Lemma opening_prints py event :
  Forall (fun ev => is_print ev = true) (opening py event).
Proof. constructor; [done | apply read_auth_code_prints]. Qed.

(** A call recorded in a run was made after the opening. *)
Lemma call_after_opening py event call t :
  S3 call ∈ opening py event ++ t -> S3 call ∈ t.
Proof.
  intros [Hin | Hin]%elem_of_app; [|done].
  pose proof (opening_prints py event) as Hp.
  rewrite Forall_forall in Hp. by apply Hp in Hin.
Qed.

(** Reads off what a hypothesis [S3 call ∈ trace] says in each run. *)
Ltac calls_in H :=
  cbn [effects fst] in H; try apply call_after_opening in H;
  repeat (apply elem_of_cons in H as [H | H]; [try discriminate H|]);
  try (by apply elem_of_nil in H).

(** What an invocation that reaches the store does: its trace and its
    answer, from the answers of the store. *)
Lemma reached_run py environ boto3 event x s3 :
  reaches_store py environ boto3 event x s3 ->
  let bucket := BUCKET_NAME environ in
  let key := OBJECT_KEY environ in
  let app_name := APP_NAME environ in
  lambda_handler py environ boto3 event
  = match head_object s3 bucket key with
    | Ok _ =>
        match generate_presigned_url s3 "get_object" bucket key x with
        | Ok url =>
            (opening py event ++
             [Client "s3";
              S3 (Head_object bucket key (Ok ()));
              Print (Object_exists key bucket);
              S3 (Generate_presigned_url "get_object" bucket key x (Ok url));
              Print (Generated_presigned_url (text_prefix 50 url))],
             Ok (success_response url x app_name key))
        | Raise e =>
            (opening py event ++
             [Client "s3";
              S3 (Head_object bucket key (Ok ()));
              Print (Object_exists key bucket);
              S3 (Generate_presigned_url "get_object" bucket key x (Raise e));
              Print (failure_line e)],
             Ok (failure_response app_name e))
        end
    | Raise e =>
        match probe_raises e with
        | None =>
            (opening py event ++
             [Client "s3";
              S3 (Head_object bucket key (Raise e));
              Print (Object_not_found key bucket)],
             Ok (not_found_response key app_name))
        | Some e' =>
            (opening py event ++
             [Client "s3";
              S3 (Head_object bucket key (Raise e));
              Print (failure_line e')],
             Ok (failure_response app_name e'))
        end
    end.
Proof.
  intros Hreach bucket key app_name. subst bucket key app_name.
  reached Hreach.
  destruct (handler_run py environ boto3 event); same_run;
    repeat match goal with
           | H : ?a = _ |- context [match ?a with _ => _ end] => rewrite H
           end; done.
Qed.

(** What an invocation that reaches the store answers. *)
Lemma reached_outcome py environ boto3 event x s3 :
  reaches_store py environ boto3 event x s3 ->
  outcome (lambda_handler py environ boto3 event)
  = Ok match head_object s3 (BUCKET_NAME environ) (OBJECT_KEY environ) with
       | Ok _ =>
           match generate_presigned_url s3 "get_object" (BUCKET_NAME environ)
                   (OBJECT_KEY environ) x with
           | Ok url =>
               success_response url x (APP_NAME environ) (OBJECT_KEY environ)
           | Raise e => failure_response (APP_NAME environ) e
           end
       | Raise e =>
           match probe_raises e with
           | None => not_found_response (OBJECT_KEY environ) (APP_NAME environ)
           | Some e' => failure_response (APP_NAME environ) e'
           end
       end.
Proof.
  intros Hreach. rewrite (reached_run _ _ _ _ _ _ Hreach).
  destruct (head_object s3 _ _) as [[]|e].
  - by destruct (generate_presigned_url s3 _ _ _ _).
  - by destruct (probe_raises e).
Qed.

(** A recorded probe is the answer of the client [boto3] handed out, in an
    invocation that reached the store. *)
Lemma recorded_probe py environ boto3 event b k answer :
  S3 (Head_object b k answer) ∈ effects (lambda_handler py environ boto3 event) ->
  exists x s3,
    reaches_store py environ boto3 event x s3
    /\ b = BUCKET_NAME environ /\ k = OBJECT_KEY environ
    /\ answer = head_object s3 (BUCKET_NAME environ) (OBJECT_KEY environ).
Proof.
  intros Hprobe.
  destruct (handler_run py environ boto3 event); calls_in Hprobe;
    injection Hprobe as -> -> ->; exists x, s3;
    (split; [by repeat split; try apply read_auth_code_ok|]); by repeat split.
Qed.

(** A recorded signing call follows a probe that returned, and is the
    answer of the same client. *)
Lemma recorded_signing py environ boto3 event m b k y answer :
  S3 (Generate_presigned_url m b k y answer)
    ∈ effects (lambda_handler py environ boto3 event) ->
  exists s3,
    reaches_store py environ boto3 event y s3
    /\ head_object s3 (BUCKET_NAME environ) (OBJECT_KEY environ) = Ok ()
    /\ m = "get_object" /\ b = BUCKET_NAME environ /\ k = OBJECT_KEY environ
    /\ answer = generate_presigned_url s3 "get_object" (BUCKET_NAME environ)
                  (OBJECT_KEY environ) y.
Proof.
  intros Hsign.
  destruct (handler_run py environ boto3 event); calls_in Hsign;
    injection Hsign as -> -> -> -> ->; exists s3;
    (split; [by repeat split; try apply read_auth_code_ok|]); by repeat split.
Qed.

(** ** The success path *)




(** ** The error paths *)


Lemma probe_raises_other ce info code :
  response_Error ce = Some info -> Code info = Some code -> code <> "404" ->
  probe_raises (ClientError ce) = Some (ClientError ce).
Proof.
  intros H1 H2 Hne. unfold probe_raises. rewrite H1, H2.
  destruct (String.eqb_spec code "404"); [done | done].
Qed.


Lemma not_found_names_key key app :
  contains key (body (not_found_response key app)).
Proof.
  eapply contains_trans; [|apply error_page_details].
  by exists "The requested file '", "' was not found. Please contact support.".
Qed.

Lemma error_code_of_some ce info code :
  response_Error ce = Some info -> Code info = Some code ->
  error_code_of ce = code.
Proof. intros H1 H2. unfold error_code_of. by rewrite H1; simpl; rewrite H2. Qed.

Lemma error_message_of_some ce info message :
  response_Error ce = Some info -> Message info = Some message ->
  error_message_of ce = message.
Proof. intros H1 H2. unfold error_message_of. by rewrite H1; simpl; rewrite H2. Qed.







(** ** Faults *)







(** An event that [json.dumps] rejects makes the handler raise before it
    has logged anything: line 23 is before the [try] as well. *)
Example long_number_propagates :
  lambda_handler sample_python sample_environ sample_boto3 long_number_event
  = ([],
     Raise (ValueError
              ("Exceeds the limit (4300 digits) for integer string conversion; " +:+
               "use sys.set_int_max_str_digits() to increase the limit"))).
Proof. by vm_compute. Qed.



(** ** The expiry *)




(** ** Probe before sign *)

Lemma lookup_after_opening py event t (i : nat) call :
  (opening py event ++ t) !! i = Some (S3 call) ->
  exists n, i = (length (opening py event) + n)%nat /\ t !! n = Some (S3 call).
Proof.
  intros [Hin | [Hle Hin]]%lookup_app_Some.
  - pose proof (opening_prints py event) as Hp.
    rewrite Forall_forall in Hp.
    apply list_elem_of_lookup_2, Hp in Hin. discriminate Hin.
  - exists (i - length (opening py event))%nat. split; [lia | done].
Qed.

Lemma lookup_opening_app py event t (n : nat) :
  (opening py event ++ t) !! (length (opening py event) + n)%nat = t !! n.
Proof.
  rewrite lookup_app_r by lia. f_equal. lia.
Qed.

(** Reads off the position of a call in the trace of a run. *)
Ltac call_at H i :=
  cbn [effects fst] in H;
  first [ let n := fresh "n" in
          apply lookup_after_opening in H as (n & -> & H);
          repeat first [ discriminate H | destruct n as [|n]; simpl in H ]
        | repeat first [ discriminate H | destruct i as [|i]; simpl in H ] ].

(** [C6] In the trace of every invocation a signing call comes after a
    probe of the same bucket and key that found the object; a 200 response
    comes from a run in which the probe found the object and signing gave
    the URL on its page; and a run without a successful probe signs
    nothing and answers with an error page.  On the side of the store: a
    200 response is built from a URL that [generate_presigned_url] gave
    after [head_object] returned, and when [head_object] raises, the
    trace and the answer are the same whatever signing would do. *)
Theorem sign_only_after_probe py environ boto3 event :
  let run := lambda_handler py environ boto3 event in
  (forall (i : nat) m b k x answer,
      effects run !! i = Some (S3 (Generate_presigned_url m b k x answer)) ->
      exists j : nat,
        (j < i)%nat /\ effects run !! j = Some (S3 (Head_object b k (Ok ()))))
  /\ (forall r,
        outcome run = Ok r -> statusCode r = 200%Z ->
        exists url x,
          S3 (Head_object (BUCKET_NAME environ) (OBJECT_KEY environ) (Ok ()))
            ∈ effects run
          /\ S3 (Generate_presigned_url "get_object" (BUCKET_NAME environ)
                   (OBJECT_KEY environ) x (Ok url)) ∈ effects run
          /\ r = success_response url x (APP_NAME environ) (OBJECT_KEY environ))
  /\ ((forall b k, S3 (Head_object b k (Ok ())) ∉ effects run) ->
      (forall m b k x answer,
          S3 (Generate_presigned_url m b k x answer) ∉ effects run)
      /\ (forall r,
            outcome run = Ok r ->
            statusCode r <> 200%Z
            /\ exists title details,
                 body r = generate_error_page title details (APP_NAME environ)))
  /\ (forall x s3 r,
        reaches_store py environ boto3 event x s3 ->
        outcome run = Ok r -> statusCode r = 200%Z ->
        head_object s3 (BUCKET_NAME environ) (OBJECT_KEY environ) = Ok ()
        /\ exists url,
             generate_presigned_url s3 "get_object" (BUCKET_NAME environ)
               (OBJECT_KEY environ) x = Ok url
             /\ r = success_response url x (APP_NAME environ) (OBJECT_KEY environ))
  /\ (forall x s3 e sign,
        reaches_store py environ boto3 event x s3 ->
        head_object s3 (BUCKET_NAME environ) (OBJECT_KEY environ) = Raise e ->
        lambda_handler py environ
          {| client := fun _ =>
               Ok {| head_object := head_object s3;
                     generate_presigned_url := sign |} |}
          event
        = run).
Proof.
  intros run. subst run. split; [|split; [|split; [|split]]].
  4:{ intros x s3 r Hreach Hr Hs.
      rewrite (reached_outcome _ _ _ _ _ _ Hreach) in Hr.
      destruct (head_object s3 _ _) as [[]|e].
      - destruct (generate_presigned_url s3 _ _ _ _) as [url|e].
        + injection Hr as <-. split; [done|]. by exists url.
        + injection Hr as <-. by rewrite failure_response_status in Hs.
      - destruct (probe_raises e); injection Hr as <-;
          [by rewrite failure_response_status in Hs | done]. }
  4:{ intros x s3 e sign Hreach Hprobe.
      rewrite (reached_run _ _ _ _ _ _ Hreach). cbn zeta. rewrite Hprobe.
      assert (reaches_store py environ
                {| client := fun _ =>
                     Ok {| head_object := head_object s3;
                           generate_presigned_url := sign |} |}
                event x
                {| head_object := head_object s3;
                   generate_presigned_url := sign |}) as Hreach'.
      { destruct Hreach as (Hlog & Hx & Hcode & _). by repeat split. }
      rewrite (reached_run _ _ _ _ _ _ Hreach'). cbn zeta.
      cbn [head_object]. by rewrite Hprobe. }
  - intros i m b k x answer Hi.
    destruct (handler_run py environ boto3 event); call_at Hi i;
      injection Hi as -> -> -> -> ->;
      exists (length (opening py event) + 1)%nat;
      (split; [lia|]); cbn [effects fst]; by rewrite lookup_opening_app.
  - intros r Hr Hs.
    destruct (handler_run py environ boto3 event); simpl in Hr;
      try discriminate Hr; injection Hr as <-;
      rewrite ?failure_response_status in Hs; try discriminate Hs.
    exists url, x. cbn [effects fst].
    repeat split; apply elem_of_app; right; repeat constructor.
  - intros Hnone. split.
    + intros m b k x answer Hsign.
      destruct (handler_run py environ boto3 event); calls_in Hsign;
        apply (Hnone (BUCKET_NAME environ) (OBJECT_KEY environ));
        cbn [effects fst]; apply elem_of_app; right; repeat constructor.
    + intros r Hr.
      destruct (handler_run py environ boto3 event); simpl in Hr;
        try discriminate Hr; injection Hr as <-;
        rewrite ?failure_response_status;
        try (split; [done | apply failure_response_body]).
      * split; [done | simpl; eauto].
      * destruct (Hnone (BUCKET_NAME environ) (OBJECT_KEY environ)).
        cbn [effects fst]. apply elem_of_app; right; repeat constructor.
Qed.

Lemma sign_only_after_probe_witness :
  (exists j : nat,
      (j < 5)%nat
      /\ effects (lambda_handler sample_python sample_environ sample_boto3
                    sample_event) !! j
         = Some (S3 (Head_object "b" "photos/x.zip" (Ok ()))))
  /\ (forall m b k x answer,
        S3 (Generate_presigned_url m b k x answer)
          ∉ effects (lambda_handler sample_python sample_environ
                       (probe_failing (store_error "404" "Not Found"))
                       sample_event)).
Proof.
  split.
  - destruct (sign_only_after_probe sample_python sample_environ sample_boto3
                sample_event) as (Horder & _ & _ & _ & _).
    apply (Horder 5%nat "get_object" "b" "photos/x.zip" 3600%Z
             (Ok "https://signed/url")).
    vm_compute. reflexivity.
  - destruct (sign_only_after_probe sample_python sample_environ
                (probe_failing (store_error "404" "Not Found")) sample_event)
      as (_ & _ & Hnone & _ & _).
    apply Hnone. intros b k Hin. vm_compute in Hin.
    repeat (apply elem_of_cons in Hin as [Hin | Hin]; [discriminate Hin|]).
    by apply elem_of_nil in Hin.
Defined.

(** ** The authorization code *)

Lemma calls_opening py event t : calls (opening py event ++ t) = calls t.
Proof.
  unfold calls. rewrite List.filter_app.
  pose proof (opening_prints py event) as Hp.
  induction Hp as [|ev l Hev _ IH]; [done|]. simpl. by rewrite Hev.
Qed.

(** [C9] A code that begins with a lone surrogate cannot be written to a
    standard output that encodes UTF-8: the request is answered 500 from
    the catch-all clause and the store is not asked, while the same
    request with the code ['abc'] is answered 200. *)
Theorem surrogate_code_is_a_fault :
  outcome (lambda_handler sample_python sample_environ sample_boto3 abc_event)
  = Ok (success_response "https://signed/url" 3600 "App" "photos/x.zip")
  /\ outcome (lambda_handler sample_python sample_environ sample_boto3
                surrogate_event)
     = Ok (system_error_response "App"
             ("'utf-8' codec can't encode character '\ud800' in position 29: " +:+
              "surrogates not allowed"))
  /\ calls (effects (lambda_handler sample_python sample_environ sample_boto3
                       surrogate_event)) = [].
Proof. repeat split; by vm_compute. Qed.

(** Two invocations that look at the code with the same result make the
    same calls and end the same way. *)
Lemma same_answer py environ boto3 e1 e2 :
  json_dumps_error py e1 = None ->
  json_dumps_error py e2 = None ->
  outcome (read_auth_code py e1) = outcome (read_auth_code py e2) ->
  outcome (lambda_handler py environ boto3 e1)
  = outcome (lambda_handler py environ boto3 e2)
  /\ calls (effects (lambda_handler py environ boto3 e1))
     = calls (effects (lambda_handler py environ boto3 e2)).
Proof.
  intros Hlog1 Hlog2 Hsame.
  destruct (handler_run py environ boto3 e1), (handler_run py environ boto3 e2);
    cbn [outcome effects fst snd]; rewrite ?calls_opening;
    same_run; split; first [ reflexivity | congruence ].
Qed.

(** The log does tell two requests apart. *)
Example auth_code_is_logged :
  Print (Authorization_code_received (txt "4f1c2d3e-a"))
    ∈ effects (lambda_handler sample_python sample_environ sample_boto3 sample_event)
  /\ Print No_authorization_code
       ∈ effects (lambda_handler sample_python sample_environ sample_boto3
                    plain_event).
Proof. split; vm_compute; repeat constructor. Qed.

(** ** The worked examples of the specification *)

(** Bucket [b], key [photos/x.zip], expiry 3600, application [App]; the
    object exists and signing gives [https://signed/url]. *)
Example end_to_end_success :
  exists r,
    outcome (lambda_handler sample_python sample_environ sample_boto3
               sample_event) = Ok r
    /\ statusCode r = 200%Z
    /\ contains ("content=" +:+ dq +:+ "3;url=https://signed/url" +:+ dq) (body r)
    /\ contains "File:</strong> x.zip" (body r)
    /\ contains "<strong>1 hour</strong>" (body r).
Proof.
  exists (success_response "https://signed/url" 3600 "App" "photos/x.zip").
  split; [by vm_compute|]. split; [reflexivity|].
  unfold success_response, body, generate_download_page.
  repeat split; [in_line 7%nat | in_line 131%nat | in_line 139%nat].
Qed.

Example end_to_end_not_found :
  exists r,
    outcome (lambda_handler sample_python sample_environ
               (probe_failing (store_error "404" "Not Found")) sample_event) = Ok r
    /\ statusCode r = 404%Z
    /\ contains "File Not Found" (body r)
    /\ contains "photos/x.zip" (body r).
Proof.
  exists (not_found_response "photos/x.zip" "App").
  split; [by vm_compute|]. split; [reflexivity|]. split.
  - eapply contains_trans; [|apply error_page_title]. by exists "<h1>", "</h1>".
  - apply not_found_names_key.
Qed.

Example end_to_end_store_error :
  exists r,
    outcome (lambda_handler sample_python sample_environ
               (probe_failing (store_error "AccessDenied" "denied"))
               sample_event) = Ok r
    /\ statusCode r = 500%Z
    /\ contains "AccessDenied" (body r)
    /\ contains "denied" (body r).
Proof.
  exists (failure_response "App" (store_error "AccessDenied" "denied")).
  split; [by vm_compute|]. split; [reflexivity|]. split.
  - eapply contains_trans; [|apply error_page_title].
    by exists "<h1>AWS Error: ", "</h1>".
  - apply error_page_details.
Qed.

(** ** At the edge of the input types *)

(** A code that is not text cannot be sliced: the request is answered 500. *)
Example numeric_code_is_a_fault :
  outcome (lambda_handler sample_python sample_environ sample_boto3
             (obj [("queryStringParameters", obj [("code", PInt 5)])]))
  = Ok (failure_response "App" (TypeError "'int' object is not subscriptable")).
Proof. by vm_compute. Qed.

(** An event that is not an object has no [get]. *)
Example list_event_is_a_fault :
  outcome (lambda_handler sample_python sample_environ sample_boto3 (PList []))
  = Ok (failure_response "App"
          (AttributeError "'list' object has no attribute 'get'")).
Proof. by vm_compute. Qed.

(** A probe error whose response has no [Error] entry ends in the catch-all
    clause, as the [KeyError] of the subscript. *)
Example probe_error_without_code :
  outcome (lambda_handler sample_python sample_environ
             (probe_failing (ClientError {| response_Error := None;
                                            client_error_str := "unparsed" |}))
             sample_event)
  = Ok (failure_response "App" (KeyError "Error")).
Proof. by vm_compute. Qed.

(** A signing error without code or message falls back on [Unknown] and
    on [str(e)]. *)
Example sign_error_defaults :
  outcome (lambda_handler sample_python sample_environ
             (sign_failing (ClientError {| response_Error := None;
                                           client_error_str := "unparsed" |}))
             sample_event)
  = Ok {| statusCode := 500;
          headers := html_headers;
          body := generate_error_page "AWS Error: Unknown" "unparsed" "App" |}.
Proof. by vm_compute. Qed.

(** A lone surrogate after the tenth character of the code is not
    logged, and does no harm. *)
Example late_surrogate_is_not_logged :
  outcome (lambda_handler sample_python sample_environ sample_boto3
             (obj [("queryStringParameters",
                    obj [("code", PStr (ustr_of "0123456789" ++ [0xD800%N]))])]))
  = Ok (success_response "https://signed/url" 3600 "App" "photos/x.zip").
Proof. by vm_compute. Qed.

(** What [int] reads: surrounding white space, a sign and single
    underscores between digits are accepted; a unit separator is not white
    space; Arabic-Indic digits and a leading no-break space are read as
    their ASCII counterparts. *)
Example int_accepts :
  parse_int (" +3_600" +:+ nl) = Some 3600%Z
  /\ parse_int "-60" = Some (-60)%Z
  /\ parse_int (String (ascii_of_nat 31) "7200") = None
  /\ parse_int "3600s" = None
  /\ parse_int "" = None
  /\ parse_int (string_of_chars
                  (ascii_of_nat <$> [217; 163; 217; 166; 217; 160; 217; 160]%nat))
     = Some 3600%Z
  /\ parse_int (string_of_chars (ascii_of_nat <$> [194; 160]%nat) +:+ "3600")
     = Some 3600%Z.
Proof. repeat split; by vm_compute. Qed.

(** * Further properties of the handler *)

(** ** Prefixes *)




(** ** What a run starts with *)

Lemma effects_after_opening py environ boto3 event x :
  json_dumps_error py event = None ->
  DOWNLOAD_EXPIRY py environ = Ok x ->
  exists t,
    effects (lambda_handler py environ boto3 event) = opening py event ++ t.
Proof.
  intros Hlog Hx.
  destruct (handler_run py environ boto3 event); [congruence..| | | | | |];
    by eexists.
Qed.

Lemma request_fault_run py environ boto3 event x e :
  json_dumps_error py event = None ->
  DOWNLOAD_EXPIRY py environ = Ok x ->
  outcome (read_auth_code py event) = Raise e ->
  outcome (lambda_handler py environ boto3 event)
  = Ok (failure_response (APP_NAME environ) e)
  /\ calls (effects (lambda_handler py environ boto3 event)) = [].
Proof.
  intros Hlog Hx He.
  destruct (handler_run py environ boto3 event);
    cbn [outcome effects fst snd]; rewrite ?calls_opening; try congruence.
  split; [congruence | done].
Qed.

(** ** Malformed events *)

(** [X1] An event that is not an object has no [get]: once it is logged and
    the configuration read, the handler answers 500 from the catch-all
    clause, naming the type of the event, and neither creates the client
    nor calls the store. *)
Theorem non_object_event_fault py environ boto3 event x :
  json_dumps_error py event = None ->
  DOWNLOAD_EXPIRY py environ = Ok x ->
  is_dict event = false ->
  outcome (lambda_handler py environ boto3 event)
  = Ok (system_error_response
          (APP_NAME environ)
          ("'" +:+ type_name event +:+ "' object has no attribute 'get'"))
  /\ calls (effects (lambda_handler py environ boto3 event)) = [].
Proof.
  intros Hlog Hx Hdict.
  assert (outcome (read_auth_code py event)
          = Raise (AttributeError
                     ("'" +:+ type_name event +:+ "' object has no attribute 'get'")))
    as He by (by destruct event).
  apply (request_fault_run py environ boto3 event x _ Hlog Hx He).
Qed.

Lemma non_object_event_fault_witness :
  outcome (lambda_handler sample_python sample_environ sample_boto3 (txt "ping"))
  = Ok (system_error_response "App" "'str' object has no attribute 'get'")
  /\ calls (effects (lambda_handler sample_python sample_environ sample_boto3
                       (txt "ping"))) = [].
Proof.
  apply (non_object_event_fault sample_python sample_environ sample_boto3
           (txt "ping") 3600%Z); vm_compute; reflexivity.
Defined.

(** [X2] Query parameters that are neither empty nor an object have no [get]
    either: the answer is the same 500, naming their type, and the store
    is not called. *)
Theorem non_object_query_fault py environ boto3 items q x :
  json_dumps_error py (PDict items) = None ->
  DOWNLOAD_EXPIRY py environ = Ok x ->
  dict_get items (ustr_of "queryStringParameters") = Some q ->
  truthy q = true ->
  is_dict q = false ->
  outcome (lambda_handler py environ boto3 (PDict items))
  = Ok (system_error_response
          (APP_NAME environ)
          ("'" +:+ type_name q +:+ "' object has no attribute 'get'"))
  /\ calls (effects (lambda_handler py environ boto3 (PDict items))) = [].
Proof.
  intros Hlog Hx Hq Ht Hdict.
  assert (outcome (read_auth_code py (PDict items))
          = Raise (AttributeError
                     ("'" +:+ type_name q +:+ "' object has no attribute 'get'")))
    as He.
  { unfold read_auth_code. cbn [get lift mbind M_bind]. rewrite Hq.
    change (default PNone (Some q)) with q. unfold or_. rewrite Ht.
    by destruct q. }
  apply (request_fault_run py environ boto3 _ x _ Hlog Hx He).
Qed.

Lemma non_object_query_fault_witness :
  outcome (lambda_handler sample_python sample_environ sample_boto3
             (obj [("queryStringParameters", txt "code=abc")]))
  = Ok (system_error_response "App" "'str' object has no attribute 'get'")
  /\ calls (effects (lambda_handler sample_python sample_environ sample_boto3
                       (obj [("queryStringParameters", txt "code=abc")]))) = [].
Proof.
  apply (non_object_query_fault sample_python sample_environ sample_boto3
           [(ustr_of "queryStringParameters", txt "code=abc")] (txt "code=abc")
           3600%Z);
    vm_compute; reflexivity.
Defined.

(** [X3] A code that is true but has no subscript (a number, [true]) cannot be
    cut to ten characters: the answer is 500 from the catch-all clause,
    naming the type of the code, and the store is not called. *)
Theorem unsliceable_code_fault py environ boto3 items params v x :
  json_dumps_error py (PDict items) = None ->
  DOWNLOAD_EXPIRY py environ = Ok x ->
  query_params_of items = PDict params ->
  dict_get params (ustr_of "code") = Some v ->
  truthy v = true ->
  has_subscript v = false ->
  outcome (lambda_handler py environ boto3 (PDict items))
  = Ok (system_error_response
          (APP_NAME environ)
          ("'" +:+ type_name v +:+ "' object is not subscriptable"))
  /\ calls (effects (lambda_handler py environ boto3 (PDict items))) = [].
Proof.
  intros Hlog Hx Hq Hv Ht Hsub.
  assert (outcome (read_auth_code py (PDict items))
          = Raise (TypeError
                     ("'" +:+ type_name v +:+ "' object is not subscriptable")))
    as He.
  { unfold read_auth_code. cbn [get lift mbind M_bind].
    fold (query_params_of items). rewrite Hq.
    cbn [get lift mbind M_bind]. rewrite Hv.
    change (default PNone (Some v)) with v. rewrite Ht. by destruct v. }
  apply (request_fault_run py environ boto3 _ x _ Hlog Hx He).
Qed.

Lemma unsliceable_code_fault_witness :
  outcome (lambda_handler sample_python sample_environ sample_boto3
             (obj [("queryStringParameters", obj [("code", PInt 42)])]))
  = Ok (system_error_response "App" "'int' object is not subscriptable")
  /\ calls (effects (lambda_handler sample_python sample_environ sample_boto3
                       (obj [("queryStringParameters",
                              obj [("code", PInt 42)])]))) = [].
Proof.
  apply (unsliceable_code_fault sample_python sample_environ sample_boto3
           [(ustr_of "queryStringParameters", obj [("code", PInt 42)])]
           [(ustr_of "code", PInt 42)] (PInt 42) 3600%Z);
    vm_compute; reflexivity.
Defined.

(** ** What the log holds *)

Lemma read_auth_code_text py items params s :
  query_params_of items = PDict params ->
  dict_get params (ustr_of "code") = Some (PStr s) ->
  s <> [] ->
  stdout_error py (ustr_of "Authorization code received: " ++ take 10 s
                   ++ ustr_of "...") = None ->
  read_auth_code py (PDict items)
  = ([Print (Authorization_code_received (PStr (take 10 s)))], Ok ()).
Proof.
  intros Hq Hv Hs Hout. unfold read_auth_code. cbn [get lift mbind M_bind].
  fold (query_params_of items). rewrite Hq.
  cbn [get lift mbind M_bind]. rewrite Hv.
  change (default PNone (Some (PStr s))) with (PStr s).
  destruct s as [|c s]; [done|]. cbn [truthy slice_to lift mbind M_bind].
  unfold print. cbn [print_error]. by rewrite Hout.
Qed.

Lemma read_auth_code_falsy py items params :
  query_params_of items = PDict params ->
  truthy (default PNone (dict_get params (ustr_of "code"))) = false ->
  read_auth_code py (PDict items) = ([Print No_authorization_code], Ok ()).
Proof.
  intros Hq Hv. unfold read_auth_code. cbn [get lift mbind M_bind].
  fold (query_params_of items). rewrite Hq.
  cbn [get lift mbind M_bind]. by rewrite Hv.
Qed.

(** [X4] The first log line of an invocation is the whole event, whatever
    the event, once [json.dumps] accepts it.  For a request with a text
    code the next line holds the first ten characters of the code and no
    more, when the standard output can write them. *)
Theorem code_log_truncated py environ boto3 :
  (forall event,
      json_dumps_error py event = None ->
      effects (lambda_handler py environ boto3 event) !! 0%nat
      = Some (Print (Event_received event)))
  /\ (forall items params s x,
        json_dumps_error py (PDict items) = None ->
        DOWNLOAD_EXPIRY py environ = Ok x ->
        query_params_of items = PDict params ->
        dict_get params (ustr_of "code") = Some (PStr s) ->
        s <> [] ->
        stdout_error py (ustr_of "Authorization code received: " ++ take 10 s
                         ++ ustr_of "...") = None ->
        exists shown rest,
          effects (lambda_handler py environ boto3 (PDict items)) !! 1%nat
          = Some (Print (Authorization_code_received (PStr shown)))
          /\ s = shown ++ rest
          /\ length shown = (10 `min` length s)%nat).
Proof.
  split.
  - intros event Hlog.
    destruct (handler_run py environ boto3 event); [congruence|done..].
  - intros items params s x Hlog Hx Hq Hv Hs Hout.
    destruct (effects_after_opening py environ boto3 (PDict items) x Hlog Hx)
      as (t & ->).
    exists (take 10 s), (drop 10 s).
    unfold opening. rewrite (read_auth_code_text _ _ _ _ Hq Hv Hs Hout).
    repeat split; [by rewrite take_drop | apply length_take].
Qed.

Lemma code_log_truncated_witness :
  effects (lambda_handler sample_python sample_environ sample_boto3 (PInt 7))
    !! 0%nat
  = Some (Print (Event_received (PInt 7)))
  /\ exists shown rest,
       effects (lambda_handler sample_python sample_environ sample_boto3
                  sample_event) !! 1%nat
       = Some (Print (Authorization_code_received (PStr shown)))
       /\ ustr_of "4f1c2d3e-authcode" = shown ++ rest
       /\ length shown = 10%nat.
Proof.
  destruct (code_log_truncated sample_python sample_environ sample_boto3)
    as [Hfirst Hcode].
  split.
  - apply Hfirst. vm_compute. reflexivity.
  - apply (Hcode [(ustr_of "queryStringParameters",
                   obj [("code", txt "4f1c2d3e-authcode")])]
                 [(ustr_of "code", txt "4f1c2d3e-authcode")]
                 (ustr_of "4f1c2d3e-authcode") 3600%Z);
      [vm_compute; reflexivity..| |vm_compute; reflexivity].
    apply (bool_decide_unpack _). vm_compute. exact I.
Defined.

(** [X5] A code that is absent, null, empty or otherwise false is no code: the
    handler logs that there is none, raises nothing, and goes on to create
    the client. *)
Theorem falsy_code_is_no_code py environ boto3 items params x :
  json_dumps_error py (PDict items) = None ->
  DOWNLOAD_EXPIRY py environ = Ok x ->
  query_params_of items = PDict params ->
  truthy (default PNone (dict_get params (ustr_of "code"))) = false ->
  let t := effects (lambda_handler py environ boto3 (PDict items)) in
  t !! 1%nat = Some (Print No_authorization_code)
  /\ t !! 2%nat = Some (Client "s3").
Proof.
  intros Hlog Hx Hq Hv t. subst t.
  pose proof (read_auth_code_falsy py _ _ Hq Hv) as Hread.
  destruct (handler_run py environ boto3 (PDict items));
    try congruence; unfold opening; rewrite Hread in *; done.
Qed.

Lemma falsy_code_is_no_code_witness :
  effects (lambda_handler sample_python sample_environ sample_boto3
             (obj [("queryStringParameters", obj [("code", txt "")])]))
    !! 1%nat
  = Some (Print No_authorization_code)
  /\ effects (lambda_handler sample_python sample_environ sample_boto3
                (obj [("queryStringParameters", obj [("code", txt "")])]))
       !! 2%nat
     = Some (Client "s3").
Proof.
  apply (falsy_code_is_no_code sample_python sample_environ sample_boto3
           [(ustr_of "queryStringParameters", obj [("code", txt "")])]
           [(ustr_of "code", txt "")] 3600%Z);
    vm_compute; reflexivity.
Defined.



(** ** Configuration *)

(** [X7] When [int] rejects the configured expiry, the handler has logged the
    event and done nothing else: the [ValueError] of [int] leaves the
    handler, no client is created and no page is built. *)
Theorem invalid_expiry_only_logs py environ boto3 event :
  json_dumps_error py event = None ->
  parse_int (environ_get environ "DOWNLOAD_EXPIRY" "3600") = None ->
  lambda_handler py environ boto3 event
  = ([Print (Event_received event)],
     Raise (ValueError
              (int_error_text py (environ_get environ "DOWNLOAD_EXPIRY" "3600")))).
Proof.
  intros Hlog Hparse.
  assert (DOWNLOAD_EXPIRY py environ
          = Raise (ValueError
                     (int_error_text py
                        (environ_get environ "DOWNLOAD_EXPIRY" "3600"))))
    as Hx by (unfold DOWNLOAD_EXPIRY, int_of_str; by rewrite Hparse).
  destruct (handler_run py environ boto3 event); congruence.
Qed.

Lemma invalid_expiry_only_logs_witness :
  lambda_handler sample_python misconfigured_environ
    (probe_failing (KeyError "x")) (PInt 7)
  = ([Print (Event_received (PInt 7))],
     Raise (ValueError "invalid literal for int() with base 10: '1h'")).
Proof.
  apply (invalid_expiry_only_logs sample_python misconfigured_environ);
    vm_compute; reflexivity.
Defined.





(** ** Faults of the store *)






(** [X9] A [ClientError] of the probe whose response has no [Error] entry, or
    whose [Error] has no [Code], fails the subscript on line 52: the
    [KeyError] is answered by the catch-all clause, whose detail is the
    quoted name of the missing key, not the error of the store. *)
Theorem probe_error_missing_key py environ boto3 event b k ce :
  let run := lambda_handler py environ boto3 event in
  S3 (Head_object b k (Raise (ClientError ce))) ∈ effects run ->
  response_Error ce ≫= Code = None ->
  outcome run
  = Ok (system_error_response
          (APP_NAME environ)
          (if response_Error ce is Some _ then "'Code'" else "'Error'")).
Proof.
  intros run Hprobe Hcode. subst run.
  assert (probe_raises (ClientError ce)
          = Some (KeyError (if response_Error ce is Some _ then "Code" else "Error")))
    as Hp.
  { unfold probe_raises. destruct (response_Error ce) as [info|]; [|done].
    simpl in Hcode. by rewrite Hcode. }
  destruct (handler_run py environ boto3 event); calls_in Hprobe;
    injection Hprobe as -> -> <-; [congruence|].
  replace e' with (KeyError (if response_Error ce is Some _ then "Code" else "Error"))
    by congruence.
  cbn [outcome snd]. by destruct (response_Error ce).
Qed.

Lemma probe_error_missing_key_witness :
  outcome (lambda_handler sample_python sample_environ
             (probe_failing
                (ClientError {| response_Error := Some {| Code := None;
                                                          Message := Some "m" |};
                                client_error_str := "text" |}))
             sample_event)
  = Ok (system_error_response "App" "'Code'").
Proof.
  apply (probe_error_missing_key sample_python sample_environ _ sample_event
           "b" "photos/x.zip"
           {| response_Error := Some {| Code := None; Message := Some "m" |};
              client_error_str := "text" |}).
  - vm_compute. repeat constructor.
  - reflexivity.
Defined.





(** ** What the handler asks of the store *)


Lemma probe_raises_none e :
  probe_raises e = None ->
  exists ce info,
    e = ClientError ce /\ response_Error ce = Some info /\ Code info = Some "404".
Proof.
  unfold probe_raises. destruct e as [ce| | | | | |]; try done.
  destruct (response_Error ce) as [info|] eqn:Hinfo; [|done].
  destruct (Code info) as [c|] eqn:Hc; [|done].
  destruct (String.eqb_spec c "404") as [-> | _]; [|done]. by eauto.
Qed.

(** [X13] The handler answers 404 for one reason only: the probe raised a
    [ClientError] whose code is ['404'].  No fault of the client, of the
    request or of signing is ever reported as a missing file, and after
    such a probe nothing is signed. *)
Theorem not_found_only_from_probe py environ boto3 event r :
  let run := lambda_handler py environ boto3 event in
  outcome run = Ok r ->
  statusCode r = 404%Z ->
  exists ce info,
    S3 (Head_object (BUCKET_NAME environ) (OBJECT_KEY environ)
          (Raise (ClientError ce))) ∈ effects run
    /\ response_Error ce = Some info
    /\ Code info = Some "404"
    /\ calls (effects run)
       = [Client "s3";
          S3 (Head_object (BUCKET_NAME environ) (OBJECT_KEY environ)
                (Raise (ClientError ce)))].
Proof.
  intros run Hr Hs. subst run.
  destruct (handler_run py environ boto3 event) as
      [ | | | |x s3 e Hlog Hx Hread Hc Hhead Hp| | | ];
    cbn [outcome snd] in Hr; try discriminate Hr; injection Hr as <-;
    rewrite ?failure_response_status in Hs; try discriminate Hs.
  destruct (probe_raises_none e Hp) as (ce & info & -> & Hinfo & Hcode).
  exists ce, info. cbn [effects fst]. rewrite calls_opening.
  repeat split; try done. apply elem_of_app; right. repeat constructor.
Qed.

Lemma not_found_only_from_probe_witness :
  exists ce info,
    S3 (Head_object "b" "photos/x.zip" (Raise (ClientError ce)))
      ∈ effects (lambda_handler sample_python sample_environ
                   (probe_failing (store_error "404" "Not Found")) sample_event)
    /\ response_Error ce = Some info
    /\ Code info = Some "404".
Proof.
  destruct (not_found_only_from_probe sample_python sample_environ
              (probe_failing (store_error "404" "Not Found")) sample_event
              (not_found_response "photos/x.zip" "App"))
    as (ce & info & Hin & Hinfo & Hcode & _).
  - vm_compute. reflexivity.
  - reflexivity.
  - by exists ce, info.
Defined.

(** ** The pages *)

Lemma download_page_badge url x app key :
  contains (app_badge app) (generate_download_page url x app key).
Proof. unfold generate_download_page, app_badge. in_line 125%nat. Qed.

Lemma error_page_badge title details app :
  contains (app_badge app) (generate_error_page title details app).
Proof. unfold generate_error_page, app_badge. in_line 88%nat. Qed.

Lemma download_page_title url x app key :
  contains ("<title>Secure Download - " +:+ app +:+ "</title>")
           (generate_download_page url x app key).
Proof. unfold generate_download_page. in_line 6%nat. Qed.

Lemma error_page_head_title title details app :
  contains ("<title>Download Error - " +:+ app +:+ "</title>")
           (generate_error_page title details app).
Proof. unfold generate_error_page. in_line 6%nat. Qed.

Lemma error_response_names_app app (r : response) :
  (exists title details, body r = generate_error_page title details app) ->
  statusCode r <> 200%Z ->
  contains (app_badge app) (body r)
  /\ (statusCode r = 200%Z ->
      contains ("<title>Secure Download - " +:+ app +:+ "</title>") (body r))
  /\ (statusCode r <> 200%Z ->
      contains ("<title>Download Error - " +:+ app +:+ "</title>") (body r)).
Proof.
  intros (t & d & ->) Hs. split; [apply error_page_badge|].
  split; [done | intros _; apply error_page_head_title].
Qed.

(** [X14] Whatever the handler returns, the page carries the configured
    application name, as it is, in its [app-name] element and in its
    title: [Secure Download - name] on the download page, [Download
    Error - name] on every error page. *)
Theorem app_name_on_every_page py environ boto3 event r :
  outcome (lambda_handler py environ boto3 event) = Ok r ->
  contains (app_badge (APP_NAME environ)) (body r)
  /\ (statusCode r = 200%Z ->
      contains ("<title>Secure Download - " +:+ APP_NAME environ +:+ "</title>")
               (body r))
  /\ (statusCode r <> 200%Z ->
      contains ("<title>Download Error - " +:+ APP_NAME environ +:+ "</title>")
               (body r)).
Proof.
  intros Hr.
  destruct (handler_run py environ boto3 event);
    cbn [outcome snd] in Hr; try discriminate Hr; injection Hr as <-;
    try (apply error_response_names_app;
         [ apply failure_response_body
         | by rewrite failure_response_status ]).
  - apply error_response_names_app; [simpl; eauto | done].
  - simpl. split; [apply download_page_badge|].
    split; [intros _; apply download_page_title | done].
Qed.

Lemma app_name_on_every_page_witness :
  contains (app_badge "App") (body (not_found_response "photos/x.zip" "App"))
  /\ contains "<title>Download Error - App</title>"
              (body (not_found_response "photos/x.zip" "App")).
Proof.
  destruct (app_name_on_every_page sample_python sample_environ
              (probe_failing (store_error "404" "Not Found")) sample_event
              (not_found_response "photos/x.zip" "App"))
    as (Hbadge & _ & Htitle).
  - vm_compute. reflexivity.
  - split; [exact Hbadge|]. apply Htitle. simpl. lia.
Defined.

(** [X15] The hours shown are a floor: an expiry of less than an hour is
    announced as [0 hours], and an expiry of up to an hour below zero as
    [-1 hours]. *)
Theorem sub_hour_expiry (download_url : string) (expiry_seconds : Z)
    (app_name object_key : string) :
  let page :=
    generate_download_page download_url expiry_seconds app_name object_key in
  ((0 <= expiry_seconds < 3600)%Z ->
   contains "This download link will expire in <strong>0 hours</strong>" page)
  /\ ((-3600 <= expiry_seconds < 0)%Z ->
      contains "This download link will expire in <strong>-1 hours</strong>" page).
Proof.
  intros page. subst page. unfold generate_download_page. split; intros Hrange.
  - rewrite (Z.div_small expiry_seconds 3600 Hrange). in_line 139%nat.
  - assert (expiry_seconds `div` 3600 = -1)%Z as ->
        by (symmetry; apply (Z.div_unique _ _ _ (expiry_seconds + 3600)); lia).
    in_line 139%nat.
Qed.

Lemma sub_hour_expiry_witness :
  contains "This download link will expire in <strong>0 hours</strong>"
           (generate_download_page "u" 900 "App" "k")
  /\ contains "This download link will expire in <strong>-1 hours</strong>"
              (generate_download_page "u" (-60) "App" "k").
Proof.
  split.
  - apply (sub_hour_expiry "u" 900 "App" "k"). lia.
  - apply (sub_hour_expiry "u" (-60) "App" "k"). lia.
Defined.

(** ** Defaults *)





(** ** The store behind the calls *)



(** [X18] Two events that are both logged and whose codes are both read
    are answered alike under the same configuration and store: the
    handler ends the same way and makes the same calls, whatever the two
    codes are.  Only the log lines can differ. *)
Theorem read_codes_answered_alike py environ boto3 e1 e2 :
  json_dumps_error py e1 = None ->
  json_dumps_error py e2 = None ->
  code_is_read py e1 = true ->
  code_is_read py e2 = true ->
  outcome (lambda_handler py environ boto3 e1)
  = outcome (lambda_handler py environ boto3 e2)
  /\ calls (effects (lambda_handler py environ boto3 e1))
     = calls (effects (lambda_handler py environ boto3 e2)).
Proof.
  intros Hlog1 Hlog2 H1%read_auth_code_ok H2%read_auth_code_ok.
  apply same_answer; congruence.
Qed.

Lemma read_codes_answered_alike_witness :
  outcome (lambda_handler sample_python sample_environ sample_boto3 sample_event)
  = outcome (lambda_handler sample_python sample_environ sample_boto3 plain_event)
  /\ calls (effects (lambda_handler sample_python sample_environ sample_boto3
                       sample_event))
     = calls (effects (lambda_handler sample_python sample_environ sample_boto3
                         plain_event)).
Proof.
  apply read_codes_answered_alike; vm_compute; reflexivity.
Defined.

(** [X19] The calls of the trace are calls on the client [boto3] hands out:
    a recorded probe is on the configured bucket and key and its answer is
    the one [head_object] gave; a recorded signing call is for
    [get_object] on the same bucket and key, after a probe that returned,
    and its answer is the one [generate_presigned_url] gave.  Every
    invocation that reaches the store probes it. *)
Theorem calls_are_the_stores py environ boto3 event :
  let run := lambda_handler py environ boto3 event in
  let bucket := BUCKET_NAME environ in
  let key := OBJECT_KEY environ in
  (forall b k answer,
      S3 (Head_object b k answer) ∈ effects run ->
      exists x s3,
        reaches_store py environ boto3 event x s3
        /\ b = bucket /\ k = key
        /\ answer = head_object s3 bucket key)
  /\ (forall m b k y answer,
        S3 (Generate_presigned_url m b k y answer) ∈ effects run ->
        exists s3,
          reaches_store py environ boto3 event y s3
          /\ head_object s3 bucket key = Ok ()
          /\ m = "get_object" /\ b = bucket /\ k = key
          /\ answer = generate_presigned_url s3 "get_object" bucket key y)
  /\ (forall x s3,
        reaches_store py environ boto3 event x s3 ->
        S3 (Head_object bucket key (head_object s3 bucket key)) ∈ effects run).
Proof.
  intros run bucket key. subst run bucket key. split; [|split].
  - apply recorded_probe.
  - apply recorded_signing.
  - intros x s3 Hreach. reached Hreach.
    destruct (handler_run py environ boto3 event); same_run;
      cbn [effects fst]; apply elem_of_app; right;
      match goal with H : head_object _ _ _ = _ |- _ => rewrite H end;
      repeat constructor.
Qed.

Lemma calls_are_the_stores_witness :
  S3 (Head_object "b" "photos/x.zip" (Raise (store_error "404" "Not Found")))
    ∈ effects (lambda_handler sample_python sample_environ
                 (probe_failing (store_error "404" "Not Found")) sample_event).
Proof.
  destruct (calls_are_the_stores sample_python sample_environ
              (probe_failing (store_error "404" "Not Found")) sample_event)
    as (_ & _ & Hprobed).
  apply (Hprobed 3600%Z (probe_failing_s3 (store_error "404" "Not Found"))).
  repeat split; vm_compute; reflexivity.
Defined.

(** [X20] An error page redirects nowhere: when the title, the detail and
    the application name hold no ['<'], the page has no refresh
    directive. *)
Theorem error_page_never_redirects (error_title error_details app_name : string) :
  has_char "<" error_title = false ->
  has_char "<" error_details = false ->
  has_char "<" app_name = false ->
  occurrences refresh_directive
    (generate_error_page error_title error_details app_name) = 0%nat.
Proof. apply error_page_no_directive. Qed.

Lemma error_page_never_redirects_witness :
  occurrences refresh_directive
    (generate_error_page "File Not Found"
       "The requested file 'photos/x.zip' was not found. Please contact support."
       "App") = 0%nat.
Proof. apply error_page_never_redirects; reflexivity. Defined.
